(** * terraform-provider-hrobot: private-IP allocator, reachability waiter,
    transaction cache and the configuration resource's lifecycle operations.

    Shallow embedding of the Go sources:
    - src/provider/provider.go      GetNextAvailableIP / ReleaseIP
    - src/provider/helper.go        waitTCP
    - src/unnamed/part_006          transaction cache, serverOrderResource.Read
    - src/provider/configure.go     configure / preInstall / postInstallFirstRun
    - src/unnamed/part_000          configurationResource Create / Update / Delete *)

From stdpp Require Import base gmap strings list pretty.
From Stdlib Require Import ZArith Ascii.

Open Scope string_scope.

(* ------------------------------------------------------------------ *)
(** ** Private IP allocator (provider.go) *)

(** [pd.UsedIPs] is a Go [map[string]bool]; a missing key reads as [false]. *)
Definition is_used (used : gmap string bool) (ip : string) : bool :=
  match used !! ip with
  | Some b => b
  | None => false
  end.

(** [fmt.Sprintf("10.1.0.%d", i)] *)
Definition ip_of (i : nat) : string := "10.1.0." +:+ pretty i.

(** The loop [for i := 2; i <= 127; i++]: [fuel] iterations starting at [i];
    returns the first index whose address is not in use. *)
Fixpoint scan_free (fuel i : nat) (used : gmap string bool) : option nat :=
  match fuel with
  | O => None
  | S fuel' => if is_used used (ip_of i) then scan_free fuel' (S i) used else Some i
  end.

Definition ip_exhausted_msg : string :=
  "no available IP addresses in range 10.1.0.2-10.1.0.127".

(** [GetNextAvailableIP]: the result is [inr ip] on success, [inl err] on
    exhaustion, together with the updated in-use map. *)
Definition GetNextAvailableIP (used : gmap string bool)
  : (string + string) * gmap string bool :=
  match scan_free 126 2 used with
  | Some i => (inr (ip_of i), <[ip_of i := true]> used)
  | None => (inl ip_exhausted_msg, used)
  end.

(** [ReleaseIP]: [delete(pd.UsedIPs, ip)]. *)
Definition ReleaseIP (used : gmap string bool) (ip : string) : gmap string bool :=
  delete ip used.

(** [n] consecutive calls to [GetNextAvailableIP] with no release in between. *)
Fixpoint acquire_n (n : nat) (used : gmap string bool)
  : list (string + string) * gmap string bool :=
  match n with
  | O => ([], used)
  | S n' =>
      let '(r, used1) := GetNextAvailableIP used in
      let '(rs, used2) := acquire_n n' used1 in
      (r :: rs, used2)
  end.

(** The addresses actually handed out (the [inr] results). *)
Fixpoint returned (rs : list (string + string)) : list string :=
  match rs with
  | [] => []
  | inr ip :: rs' => ip :: returned rs'
  | inl _ :: rs' => returned rs'
  end.

(** The in-use map holding exactly the given addresses. *)
Definition used_of (ips : list string) : gmap string bool :=
  foldr (fun ip m => <[ip := true]> m) ∅ ips.

(* ------------------------------------------------------------------ *)
(** ** Reachability waiter (helper.go, [waitTCP]) *)

Open Scope Z_scope.

(** Durations and instants are Go [time.Duration] / monotonic readings in
    nanoseconds. *)
Definition second : Z := 1000000000.
Definition minute : Z := 60 * second.

(** [net.DialTimeout("tcp", addr, 5*time.Second)] per attempt and
    [time.Sleep(5 * time.Second)] after a failed attempt. *)
Definition dial_timeout : Z := 5 * second.
Definition poll_interval : Z := 5 * second.

Section WaitTCP.
(** The endpoint: an attempt started at instant [t] either connects or fails,
    and takes [snd (dial t)] nanoseconds. *)
Variable dial : Z -> bool * Z.

(** One iteration of [for time.Now().Before(deadline) { ... }].  [fuel] only
    bounds the recursion for Rocq; [waitTCP] passes enough of it. *)
Fixpoint wait_loop (fuel : nat) (deadline now : Z) : option (bool * Z) :=
  match fuel with
  | O => None
  | S fuel' =>
      if now <? deadline then
        let '(ok, d) := dial now in
        if ok then Some (true, now + d)
        else wait_loop fuel' deadline (now + d + poll_interval)
      else Some (false, now)
  end.

(** [waitTCP addr timeout] started at instant [start]: [Some (true, t)] is
    [nil] returned at [t], [Some (false, t)] the timeout error returned at
    [t].  Every failed iteration lasts at least [poll_interval], so
    [timeout / poll_interval + 2] iterations always suffice. *)
Definition waitTCP (timeout start : Z) : option (bool * Z) :=
  wait_loop (Z.to_nat (timeout / poll_interval) + 2) (start + timeout) start.
End WaitTCP.

(* ------------------------------------------------------------------ *)
(** ** Transaction cache (part_006) *)

Record Transaction := mkTransaction {
  tx_ID : string;
  tx_Status : string;
  tx_ServerNumber : option Z;
  tx_ServerIP : string
}.

(** [cacheExpiry = 5 * time.Minute] *)
Definition cacheExpiry : Z := 5 * minute.

(** [transactionCache]: id -> entry (a possibly nil [*client.Transaction] and
    its [lastUpdated] instant). *)
Abbreviation tx_cache := (gmap string (option Transaction * Z)).

Definition getCachedTransaction (cache : tx_cache) (now : Z) (id : string)
  : option (option Transaction) :=
  match cache !! id with
  | None => None
  | Some (tx, lastUpdated) =>
      if cacheExpiry <? now - lastUpdated then None else Some tx
  end.

Definition setCachedTransaction (cache : tx_cache) (now : Z) (id : string)
  (tx : Transaction) : tx_cache :=
  <[id := (Some tx, now)]> cache.

Definition shouldRefreshTransaction (tx : option Transaction) : bool :=
  match tx with
  | None => true
  | Some t => String.eqb (tx_Status t) "in process"
  end.

(** Outcome of [Client.GetOrderTransaction]; [NotFound] is what
    [client.IsNotFound] recognises. *)
Inductive tx_response :=
  | TxOk (tx : Transaction)
  | TxNotFound
  | TxErr (msg : string).

(** What [serverOrderResource.Read] leaves in the response; [ReadPanic] is the
    nil pointer dereference of a nil cached transaction (the provider process
    crashes). *)
Inductive read_outcome :=
  | ReadPanic
  | ReadRemove
  | ReadError (summary detail : string)
  | ReadState (status : string) (server_number : option Z) (server_ip : string).

Record read_result := mkReadResult {
  rr_outcome : read_outcome;
  rr_cache : tx_cache;
  rr_api_calls : list string   (* ids passed to GetOrderTransaction *)
}.

Section OrderRead.
(** The provider API: a call made at [t] for [id] answers [fst] and returns
    at instant [snd]. *)
Variable GetOrderTransaction : Z -> string -> tx_response * Z.

Definition read_from (tx : Transaction) : read_outcome :=
  ReadState (tx_Status tx) (tx_ServerNumber tx) (tx_ServerIP tx).

(** The [else] branch of [Read]: live fetch, then [setCachedTransaction]
    with the instant the call returned. *)
Definition fetch_transaction (cache : tx_cache) (now : Z) (transactionID : string)
  : read_result :=
  let '(r, t) := GetOrderTransaction now transactionID in
  match r with
  | TxNotFound => mkReadResult ReadRemove cache [transactionID]
  | TxErr e => mkReadResult (ReadError "read transaction" e) cache [transactionID]
  | TxOk tx =>
      mkReadResult (read_from tx)
        (setCachedTransaction cache t transactionID tx) [transactionID]
  end.

(** [serverOrderResource.Read] at instant [now], given the [id] attribute of
    the prior state ([None] when null).  [found && !shouldRefreshTransaction
    (cachedTx)] can only hold for a non-nil cached transaction.  In the
    refresh branch a found entry is logged with [cachedTx.Status] before the
    API call, which dereferences a nil [cachedTx]. *)
Definition serverOrderRead (cache : tx_cache) (now : Z) (id : option string)
  : read_result :=
  match id with
  | None => mkReadResult ReadRemove cache []
  | Some "" => mkReadResult ReadRemove cache []
  | Some transactionID =>
      match getCachedTransaction cache now transactionID with
      | Some cachedTx =>
          if negb (shouldRefreshTransaction cachedTx) then
            match cachedTx with
            | Some tx => mkReadResult (read_from tx) cache []
            | None => fetch_transaction cache now transactionID
            end
          else
            match cachedTx with
            | None => mkReadResult ReadPanic cache []
            | Some _ => fetch_transaction cache now transactionID
            end
      | None => fetch_transaction cache now transactionID
      end
  end.
End OrderRead.

Close Scope Z_scope.

(* ------------------------------------------------------------------ *)
(** ** Go string helpers used by the pipeline *)

(** [unicode.IsSpace] on single-byte characters: '\t', '\n', '\v', '\f',
    '\r', ' '.  (Multi-byte Unicode spaces are not modelled; the listings
    parsed here are ASCII.) *)
Definition is_space (c : ascii) : bool :=
  let n := Ascii.nat_of_ascii c in
  (Nat.eqb n 32 || (Nat.leb 9 n && Nat.leb n 13))%bool.

Definition newline : ascii := Ascii.ascii_of_nat 10.

Fixpoint trim_left (s : string) : string :=
  match s with
  | EmptyString => EmptyString
  | String c s' => if is_space c then trim_left s' else s
  end.

Fixpoint trim_right (s : string) : string :=
  match s with
  | EmptyString => EmptyString
  | String c s' =>
      let r := trim_right s' in
      if (String.eqb r "" && is_space c)%bool then EmptyString else String c r
  end.

(** [strings.TrimSpace] *)
Definition TrimSpace (s : string) : string := trim_right (trim_left s).

(** [strings.Split(s, "\n")]; [Split("", "\n")] is [[""]]. *)
Fixpoint split_nl (s : string) : list string :=
  match s with
  | EmptyString => [EmptyString]
  | String c s' =>
      match split_nl s' with
      | [] => []
      | l0 :: ls =>
          if Ascii.eqb c newline then EmptyString :: l0 :: ls else String c l0 :: ls
      end
  end.

(** [strings.Fields]: the maximal runs of non-space characters. *)
Fixpoint fields_go (s cur : string) : list string :=
  match s with
  | EmptyString => if String.eqb cur "" then [] else [cur]
  | String c s' =>
      if is_space c then
        (if String.eqb cur "" then fields_go s' "" else cur :: fields_go s' "")
      else fields_go s' (cur +:+ String c EmptyString)
  end.

Definition Fields (s : string) : list string := fields_go s "".

Fixpoint replace_go (fuel : nat) (s old new : string) : string :=
  match fuel with
  | O => s
  | S fuel' =>
      match s with
      | EmptyString => EmptyString
      | String c s' =>
          if String.prefix old s
          then new +:+ replace_go fuel' (String.substring (String.length old)
                                          (String.length s) s) old new
          else String c (replace_go fuel' s' old new)
      end
  end.

(** [strings.ReplaceAll(s, old, new)] for a non-empty [old]. *)
Definition ReplaceAll (s old new : string) : string :=
  replace_go (String.length s) s old new.

(* ------------------------------------------------------------------ *)
(** ** Terraform values and the configuration model (part_000) *)

(** [types.String] / [types.Int64] / [types.Bool] / [types.List]. *)
Inductive tfval (A : Type) :=
  | TNull
  | TUnknown
  | TVal (a : A).
Arguments TNull {A}.
Arguments TUnknown {A}.
Arguments TVal {A} a.

Definition known {A} (v : tfval A) : bool :=
  match v with TVal _ => true | _ => false end.

Definition ValueString (v : tfval string) : string :=
  match v with TVal s => s | _ => "" end.

Definition ValueInt64 (v : tfval Z) : Z :=
  match v with TVal z => z | _ => 0%Z end.

Definition ValueBool (v : tfval bool) : bool :=
  match v with TVal b => b | _ => false end.

Record configurationModel := mkConfigurationModel {
  ID : tfval string;
  ServerNumber : tfval Z;
  ServerIP : tfval string;
  ServerName : tfval string;
  RobotName : tfval string;
  Description : tfval string;
  VSwitchID : tfval Z;
  Version : tfval Z;
  LocalIP : tfval string;
  RaidLevel : tfval Z;
  Arch : tfval string;
  CryptPassword : tfval string;
  ExtraScript : tfval string;
  NoUEFI : tfval bool;
  RescueKeyFPs : tfval (list string)
}.

(** [plan.LocalIP = v] *)
Definition set_LocalIP (m : configurationModel) (v : tfval string) : configurationModel :=
  {| ID := ID m; ServerNumber := ServerNumber m; ServerIP := ServerIP m;
     ServerName := ServerName m; RobotName := RobotName m;
     Description := Description m; VSwitchID := VSwitchID m; Version := Version m;
     LocalIP := v; RaidLevel := RaidLevel m; Arch := Arch m;
     CryptPassword := CryptPassword m; ExtraScript := ExtraScript m;
     NoUEFI := NoUEFI m; RescueKeyFPs := RescueKeyFPs m |}.

(** [state.ID = v] *)
Definition set_ID (m : configurationModel) (v : tfval string) : configurationModel :=
  {| ID := v; ServerNumber := ServerNumber m; ServerIP := ServerIP m;
     ServerName := ServerName m; RobotName := RobotName m;
     Description := Description m; VSwitchID := VSwitchID m; Version := Version m;
     LocalIP := LocalIP m; RaidLevel := RaidLevel m; Arch := Arch m;
     CryptPassword := CryptPassword m; ExtraScript := ExtraScript m;
     NoUEFI := NoUEFI m; RescueKeyFPs := RescueKeyFPs m |}.

(** [mustStringSliceCreate] / [mustStringSliceUpdate] *)
Definition mustStringSlice (l : tfval (list string)) : list string :=
  match l with TVal xs => xs | _ => [] end.

(* ------------------------------------------------------------------ *)
(** ** Remote calls, the world they act on, and a state monad *)

(** Every call the configuration resource makes to the provider API, the
    reachability waiter or the SSH/SFTP session, with its arguments. *)
Inductive call :=
  | ActivateRescue (server : Z) (os : string) (fps : list string)
  | Reset (server : Z) (kind : string)
  | WaitTCP (addr : string) (timeout : Z)
  | Connect (host : string) (timeout : Z)
  | Run (cmd : string)
  | Upload (path data : string) (mode : Z)
  | Sleep (d : Z)
  | SetServerName (server : Z) (name : string)
  | AddServerToVSwitch (vswitch : Z) (ip : string)
  | CancelServer (server : Z) (cancelDate : string).

Global Instance call_eq_dec : EqDecision call.
Proof. solve_decision. Defined.

(** A call either succeeds (with its output, for [Run]) or fails with the
    error's message ([err.Error()]). *)
Inductive resp :=
  | ROk (out : string)
  | RErr (msg : string).

(** The provider's shared state ([ProviderData.UsedIPs]) and the calls issued
    so far, oldest first. *)
Record World := mkWorld {
  UsedIPs : gmap string bool;
  Calls : list call
}.

Definition M (A : Type) : Type := World -> A * World.

Global Instance M_ret : MRet M := fun A a w => (a, w).
Global Instance M_bind : MBind M :=
  fun A B k m w => let '(a, w') := m w in k a w'.

(** [r.providerData.GetNextAvailableIP()] *)
Definition acquire_ip : M (string + string) :=
  fun w => let '(r, u) := GetNextAvailableIP (UsedIPs w) in
           (r, mkWorld u (Calls w)).

(** [r.providerData.ReleaseIP(ip)] *)
Definition release_ip (ip : string) : M unit :=
  fun w => (tt, mkWorld (ReleaseIP (UsedIPs w) ip) (Calls w)).

(** Diagnostics appended to a Terraform response. *)
Inductive severity := SevError | SevWarning.

Record diag := mkDiag {
  d_severity : severity;
  d_summary : string;
  d_detail : string
}.

Definition AddError (summary detail : string) : diag := mkDiag SevError summary detail.
Definition AddWarning (summary detail : string) : diag := mkDiag SevWarning summary detail.

(** [resp.Diagnostics.HasError()] *)
Definition HasError (ds : list diag) : bool :=
  existsb (fun d => match d_severity d with SevError => true | SevWarning => false end) ds.

(** What Create / Update leave in their response: the diagnostics and the
    state passed to [resp.State.Set] ([None] when the code returns before
    setting it). *)
Record op_result := mkOpResult {
  diags : list diag;
  new_state : option configurationModel
}.

(* ------------------------------------------------------------------ *)
(** ** Payloads (configure.go) *)

Definition nl : string := String newline EmptyString.

Fixpoint join_lines (ls : list string) : string :=
  match ls with
  | [] => ""
  | [l] => l
  | l :: ls' => l +:+ nl +:+ join_lines ls'
  end.

(** [buildAutosetupContent(serverName, arch, cryptPassword, raidLevel, drive1,
    drive2, noUEFI)] *)
Definition buildAutosetupContent (serverName arch cryptPassword : string)
  (raidLevel : Z) (drive1 drive2 : string) (noUEFI : bool) : string :=
  join_lines
    (["CRYPTPASSWORD " +:+ cryptPassword;
      "DRIVE1 " +:+ drive1;
      "DRIVE2 " +:+ drive2;
      "SWRAID 1";
      "SWRAIDLEVEL " +:+ pretty raidLevel;
      "BOOTLOADER grub"] ++
     (if noUEFI then [] else ["PART /boot/efi esp 512M"]) ++
     ["PART /boot ext4 1G";
      "PART /     ext4 all crypt";
      "IMAGE /root/images/Ubuntu-2404-noble-" +:+ arch +:+ "-base.tar.gz";
      "HOSTNAME " +:+ serverName]).

Definition lsblk_cmd : string := "lsblk -d -o NAME,SIZE,TYPE | grep disk".
Definition installimage_cmd : string :=
  "/root/.oldroot/nfs/install/installimage -a -c /root/setup.conf -x /root/post-install.sh".
Definition reboot_cmd : string := "reboot || systemctl reboot || shutdown -r now || true".

(** [diskLines := strings.Split(strings.TrimSpace(diskOutput), "\n")] *)
Definition diskLines (diskOutput : string) : list string :=
  split_nl (TrimSpace diskOutput).

Definition invalid_disk_count_detail (diskOutput : string) : string :=
  "Expected exactly 2 disks, found " +:+ pretty (length (diskLines diskOutput)) +:+
  " disks: " +:+ diskOutput.

(** The [for i, line := range diskLines] loop: [inl line] is the
    "disk parsing error" return, [inr (drive1, drive2)] the drives. *)
Fixpoint parse_drives (i : nat) (lines : list string) (drive1 drive2 : string)
  : string + (string * string) :=
  match lines with
  | [] => inr (drive1, drive2)
  | line :: rest =>
      match Fields line with
      | [] => inl line
      | f0 :: _ =>
          let diskName := "/dev/" +:+ f0 in
          if Nat.eqb i 0 then parse_drives (S i) rest diskName drive2
          else parse_drives (S i) rest drive1 diskName
      end
  end.

(* ------------------------------------------------------------------ *)
(** ** Provisioning pipeline and the configuration resource *)

Section Resource.
(** The outside world: the answer to a call, given the calls made before it. *)
Variable respond : list call -> call -> resp.
(** The shell-script constants [postinstallScript] (part_003) and
    [postinstallFirstRunScript] (postinstall-firstrun.go); the pipeline only
    substitutes placeholders in them. *)
Variable postinstallScript postinstallFirstRunScript : string.

Definition issue (c : call) : M resp :=
  fun w => (respond (Calls w) c, mkWorld (UsedIPs w) (Calls w ++ [c])).

Local Open Scope Z_scope.

(** [preInstall], from the upload of the autosetup file on (configure.go,
    the revision taking [noUEFI], lines 459-681). *)
Definition preInstall_install (ip : string) (plan : configurationModel)
  (drive1 drive2 : string) : M (string * string) :=
  let serverName := ValueString (ServerName plan) in
  let arch := ValueString (Arch plan) in
  let cryptPassword := ValueString (CryptPassword plan) in
  let raidLevel := if known (RaidLevel plan) then ValueInt64 (RaidLevel plan) else 1 in
  let noUEFI := if known (NoUEFI plan) then ValueBool (NoUEFI plan) else false in
  let autosetupContent :=
    buildAutosetupContent serverName arch cryptPassword raidLevel drive1 drive2 noUEFI in
  r ← issue (Upload "/root/setup.conf" autosetupContent 384);   (* 0600 *)
  match r with
  | RErr e => mret ("upload autosetup", e)
  | ROk _ =>
  let postinstallContent :=
    ReplaceAll postinstallScript "SECRETPASSWORDREPLACEME" cryptPassword in
  r ← issue (Upload "/root/post-install.sh" postinstallContent 448);   (* 0700 *)
  match r with
  | RErr e => mret ("upload post-install", e)
  | ROk _ =>
  _ ← issue (Run "chmod +x /root/post-install.sh || true");   (* warning only *)
  r ← issue (Run installimage_cmd);
  match r with
  | RErr e => mret ("installimage failed", e)
  | ROk _ =>
  _ ← issue (Run reboot_cmd);   (* warning only *)
  _ ← issue (Sleep (10 * second));
  r ← issue (WaitTCP (ip +:+ ":22") (5 * minute));
  match r with
  | ROk _ => mret ("", "")
  | RErr e =>
      r2 ← issue (WaitTCP (ip +:+ ":22") (15 * minute));
      match r2 with
      | RErr e2 => mret ("os ssh timeout", e +:+ " / " +:+ e2)
      | ROk _ => mret ("", "")
      end
  end end end end.

(** [preInstall], disk detection (configure.go lines 536-560). *)
Definition probeDisks (ip : string) (plan : configurationModel) : M (string * string) :=
  r ← issue (Run lsblk_cmd);
  match r with
  | RErr e => mret ("disk detection failed", "Failed to detect disks: " +:+ e)
  | ROk diskOutput =>
      if negb (Nat.eqb (length (diskLines diskOutput)) 2)
      then mret ("invalid disk count", invalid_disk_count_detail diskOutput)
      else
        match parse_drives 0 (diskLines diskOutput) "" "" with
        | inl line => mret ("disk parsing error", "Could not parse disk line: " +:+ line)
        | inr (drive1, drive2) => preInstall_install ip plan drive1 drive2
        end
  end.

Definition no_ssh_keys_detail : string :=
  "At least one rescue_authorized_key_fingerprint is required for SSH access".

(** [preInstall]: rescue activation, reset, SSH wait, SSH connection. *)
Definition preInstall (fp : list string) (ip : string) (plan : configurationModel)
  : M (string * string) :=
  let sn := ValueInt64 (ServerNumber plan) in
  r ← issue (ActivateRescue sn "linux" fp);
  match r with
  | RErr e => mret ("activate rescue failed", e)
  | ROk _ =>
  r ← issue (Reset sn "hw");
  match r with
  | RErr e => mret ("reset failed", e)
  | ROk _ =>
  r ← issue (WaitTCP (ip +:+ ":22") (5 * minute));
  match r with
  | RErr e => mret ("rescue ssh timeout", e)
  | ROk _ =>
  match fp with
  | [] => mret ("no ssh keys", no_ssh_keys_detail)
  | _ :: _ =>
  r ← issue (Connect ip (3 * minute));
  match r with
  | RErr e => mret ("ssh connect", e)
  | ROk _ => probeDisks ip plan
  end end end end end.

(** [postInstallFirstRun] (configure.go, the revision using [ExtraScript],
    lines 272-328). *)
Definition postInstallFirstRun (fp : list string) (ip : string)
  (plan : configurationModel) : M (string * string) :=
  match fp with
  | [] => mret ("no ssh keys", no_ssh_keys_detail)
  | _ :: _ =>
  r ← issue (Connect ip (3 * minute));
  match r with
  | RErr e => mret ("ssh connect", e)
  | ROk _ =>
  let localIP := if known (LocalIP plan) then ValueString (LocalIP plan) else "" in
  let extraScript := if known (ExtraScript plan) then ValueString (ExtraScript plan) else "" in
  let content :=
    ReplaceAll (ReplaceAll postinstallFirstRunScript "LOCALIPADDRESSREPLACEME" localIP)
               "# EXTRASCRIPTREPLACEME" extraScript in
  r ← issue (Upload "/root/initialize.sh" content 448);
  match r with
  | RErr e => mret ("upload initialize", e)
  | ROk _ =>
  _ ← issue (Run "chmod +x /root/initialize.sh && /root/initialize.sh");   (* warning only *)
  mret ("", "")
  end end end.

(** [configure]: a stage failed when its second result is non-empty. *)
Definition configure (fp : list string) (ip : string) (plan : configurationModel)
  : M (string * string) :=
  '(summary, err) ← preInstall fp ip plan;
  if negb (String.eqb err "") then mret (summary, err) else
  '(summary, err) ← postInstallFirstRun fp ip plan;
  if negb (String.eqb err "") then mret (summary, err) else
  mret ("", "").

(** The name sent to Robot: [robot_name] when set and non-empty, else
    [server_name]. *)
Definition robot_name (plan : configurationModel) : string :=
  if (known (RobotName plan) && negb (String.eqb (ValueString (RobotName plan)) ""))%bool
  then ValueString (RobotName plan) else ValueString (ServerName plan).

(** *** Create (part_000 lines 80-165), at Unix time [now] *)

Definition Create_configure (fp : list string) (ip : string)
  (plan : configurationModel) (now : Z) : M op_result :=
  '(err_summary, err_detail) ← configure fp ip plan;
  if negb (String.eqb err_summary "") then
    mret (mkOpResult [AddError err_summary err_detail] None)
  else
    mret (mkOpResult [] (Some (set_ID plan (TVal ("configuration-" +:+ pretty now))))).

Definition Create_vswitch (fp : list string) (ip : string)
  (plan : configurationModel) (now : Z) : M op_result :=
  if known (VSwitchID plan) then
    r ← issue (AddServerToVSwitch (ValueInt64 (VSwitchID plan)) (ValueString (ServerIP plan)));
    match r with
    | RErr e => mret (mkOpResult [AddError "add server to vswitch failed" e] None)
    | ROk _ => Create_configure fp ip plan now
    end
  else Create_configure fp ip plan now.

Definition Create_name (fp : list string) (ip : string)
  (plan : configurationModel) (now : Z) : M op_result :=
  let robotName := robot_name plan in
  if negb (String.eqb robotName "") then
    r ← issue (SetServerName (ValueInt64 (ServerNumber plan)) robotName);
    match r with
    | RErr e => mret (mkOpResult [AddError "set server name failed" e] None)
    | ROk _ => Create_vswitch fp ip plan now
    end
  else Create_vswitch fp ip plan now.

Definition Create (plan : configurationModel) (now : Z) : M op_result :=
  let fp := mustStringSlice (RescueKeyFPs plan) in
  let ip := ValueString (ServerIP plan) in
  r ← acquire_ip;
  match r with
  | inl e => mret (mkOpResult [AddError "IP assignment failed" e] None)
  | inr localIP => Create_name fp ip (set_LocalIP plan (TVal localIP)) now
  end.

(** *** Update (part_000 lines 171-283) *)

Definition Update_reconfigure (plan currentState : configurationModel) : M op_result :=
  '(summary, err_detail) ←
    configure (mustStringSlice (RescueKeyFPs plan)) (ValueString (ServerIP plan)) plan;
  if negb (String.eqb summary "") then
    mret (mkOpResult [AddError summary err_detail] None)
  else mret (mkOpResult [] (Some (set_ID plan (ID currentState)))).

Definition Update_version (plan currentState : configurationModel) : M op_result :=
  if known (Version plan) then
    if (known (LocalIP currentState) &&
        negb (String.eqb (ValueString (LocalIP currentState)) ""))%bool
    then Update_reconfigure (set_LocalIP plan (LocalIP currentState)) currentState
    else
      r ← acquire_ip;
      match r with
      | inl e => mret (mkOpResult [AddError "IP assignment failed" e] None)
      | inr localIP => Update_reconfigure (set_LocalIP plan (TVal localIP)) currentState
      end
  else
    let ds : list diag := [] in
    mret (mkOpResult
            (if HasError ds
             then ds ++ [AddWarning "Update limited"
                           "Some changes may require resource recreation (taint/recreate)."]
             else ds)
            (Some (set_ID plan (ID currentState)))).

Definition Update_vswitch (plan currentState : configurationModel) : M op_result :=
  if known (VSwitchID plan) then
    if known (ServerIP currentState) then
      r ← issue (AddServerToVSwitch (ValueInt64 (VSwitchID plan))
                                    (ValueString (ServerIP currentState)));
      match r with
      | RErr e => mret (mkOpResult [AddError "update server vswitch failed" e] None)
      | ROk _ => Update_version plan currentState
      end
    else Update_version plan currentState
  else Update_version plan currentState.

Definition Update (plan currentState : configurationModel) : M op_result :=
  let plan := if known (LocalIP currentState)
              then set_LocalIP plan (LocalIP currentState) else plan in
  let robotName := robot_name plan in
  if negb (String.eqb robotName "") then
    r ← issue (SetServerName (ValueInt64 (ServerNumber plan)) robotName);
    match r with
    | RErr e => mret (mkOpResult [AddError "update server name failed" e] None)
    | ROk _ => Update_vswitch plan currentState
    end
  else Update_vswitch plan currentState.

(** *** Delete (part_000 lines 285-338) *)

Definition Delete (state : configurationModel) : M (list diag) :=
  _ ← (if (known (LocalIP state) && negb (String.eqb (ValueString (LocalIP state)) ""))%bool
       then release_ip (ValueString (LocalIP state)) else mret tt);
  if known (ServerNumber state) then
    let serverNumber := ValueInt64 (ServerNumber state) in
    r ← issue (CancelServer serverNumber "");
    match r with
    | RErr e =>
        mret [AddWarning "Server Cancellation Failed"
                ("Failed to schedule cancellation for server " +:+ pretty serverNumber +:+
                 ": " +:+ e +:+ ". Please cancel the server manually through the Hetzner Robot interface to stop billing.")]
    | ROk _ =>
        mret [AddWarning "Server Cancellation Scheduled"
                ("Server " +:+ pretty serverNumber +:+
                 " has been scheduled for cancellation at the end of the billing period. The server will remain active until then.")]
    end
  else
    mret [AddWarning "Manual Cancellation May Be Required"
            "The configuration has been removed from Terraform state, but if a server was created, you may need to cancel it manually through the Hetzner Robot interface."].
End Resource.

(* ------------------------------------------------------------------ *)
(** ** Concrete scenarios *)

Definition two_disk_listing : string :=
  "sda   1.7T disk" +:+ nl +:+ "sdb   1.7T disk" +:+ nl.

(** Every call succeeds; the disk probe answers [lsblk]. *)
Definition ok_oracle (lsblk : string) : list call -> call -> resp :=
  fun _ c =>
    match c with
    | Run cmd => if String.eqb cmd lsblk_cmd then ROk lsblk else ROk ""
    | _ => ROk ""
    end.

(** Robot refuses every request; the SSH side would succeed. *)
Definition robot_down_oracle : list call -> call -> resp :=
  fun _ c =>
    match c with
    | SetServerName _ _ | AddServerToVSwitch _ _ | CancelServer _ _
    | ActivateRescue _ _ _ | Reset _ _ => RErr "robot API: 503 Service Unavailable"
    | _ => ROk ""
    end.

(** A provisioned server, as persisted after [Create]. *)
Definition prior_state : configurationModel :=
  mkConfigurationModel (TVal "configuration-1700000000") (TVal 2345678%Z)
    (TVal "203.0.113.7") (TVal "node-1") TNull (TVal "old description") TNull
    (TVal 1%Z) (TVal "10.1.0.5") TNull (TVal "amd64") (TVal "s3cret") TNull TNull
    (TVal ["aa:bb:cc"]).

(** The plan of an update: [version] as given, [description] changed to
    "new description"; the computed [local_ip] is unknown in the plan. *)
Definition plan_with (version : tfval Z) : configurationModel :=
  mkConfigurationModel TUnknown (TVal 2345678%Z)
    (TVal "203.0.113.7") (TVal "node-1") TNull (TVal "new description") TNull
    version TUnknown TNull (TVal "amd64") (TVal "s3cret") TNull TNull
    (TVal ["aa:bb:cc"]).

(** [prior_state] with a different [local_ip] value. *)
Definition prior_state_with_ip (v : tfval string) : configurationModel :=
  set_LocalIP prior_state v.

(** Only 10.1.0.5 is in use (held by [prior_state]). *)
Definition world0 : World := mkWorld (used_of ["10.1.0.5"]) [].

(** Lines of a listing that carry a disk name: a non-space character. *)
Fixpoint has_nonspace (s : string) : bool :=
  match s with
  | EmptyString => false
  | String c s' => (negb (is_space c) || has_nonspace s')%bool
  end.

(** The calls of [preInstall] before the disk probe: rescue activation, hardware
    reset, the SSH wait and the SSH connection. *)
Definition rescue_calls (fp : list string) (ip : string) (plan : configurationModel)
  : list call :=
  let sn := ValueInt64 (ServerNumber plan) in
  [ActivateRescue sn "linux" fp; Reset sn "hw";
   WaitTCP (ip +:+ ":22") (5 * minute)%Z; Connect ip (3 * minute)%Z].

(** A computation that only appends to the call trace. *)
Definition extends_calls {A} (m : M A) : Prop :=
  forall w, exists l : list call, Calls (snd (m w)) = (Calls w ++ l)%list.

(** A computation that never touches [UsedIPs]. *)
Definition keeps_ips {A} (m : M A) : Prop :=
  forall w, UsedIPs (snd (m w)) = UsedIPs w.

(** A state the create or update paths write is the plan they worked on, with
    the ID they chose; a path that reports an error writes no state. *)
Definition result_ok (r : op_result) : Prop :=
  HasError (diags r) = true -> new_state r = None.

(** The output of [TrimSpace] starts with a non-space character (or is empty)... *)
Definition starts_ok (x : string) : Prop :=
  match x with EmptyString => True | String c _ => is_space c = false end.

(** ... and its last line carries a non-space character (or it is empty). *)
Definition ends_ok (y : string) : Prop :=
  y = EmptyString \/ exists l, last (split_nl y) = Some l /\ has_nonspace l = true.

(* ------------------------------------------------------------------ *)
(** ** Transaction cache persistence (part_006) *)

Open Scope Z_scope.

(** [lastUpdated.Format(time.RFC3339)] followed by [time.Parse(time.RFC3339, _)]
    keeps the instant down to the whole second: the fraction is dropped. *)
Definition trunc_second (t : Z) : Z := t / second * second.

(** The decoded cache file, [map[string]*jsonCacheEntry]: per id [None] for a
    JSON null entry (a nil [*jsonCacheEntry]), else the (possibly nil)
    transaction and the parsed [last_updated] ([None] when [time.Parse]
    fails). *)
Abbreviation disk_cache := (gmap string (option (option Transaction * option Z))).

(** [saveCacheToDisk]: the file content written for [transactionCache]. *)
Definition saveCacheToDisk (cache : tx_cache) : disk_cache :=
  (fun '(tx, lastUpdated) => Some (tx, Some (trunc_second lastUpdated))) <$> cache.

(** [loadCacheFromDisk] at instant [now] into the current [transactionCache];
    [disk = None] when the file cannot be read or decoded.  The result is
    [None] when the loop reaches a nil entry: [jsonEntry.LastUpdated] panics. *)
Definition loadCacheFromDisk (cache : tx_cache) (disk : option disk_cache) (now : Z)
  : option tx_cache :=
  match disk with
  | None => Some cache
  | Some diskCache =>
      map_fold (fun id entry acc =>
                  match acc, entry with
                  | None, _ => None
                  | Some _, None => None
                  | Some c, Some (tx, parsed) =>
                      match parsed with
                      | None => Some c
                      | Some lastUpdated =>
                          if now - lastUpdated <=? cacheExpiry
                          then Some (<[id := (tx, lastUpdated)]> c) else Some c
                      end
                  end) (Some cache) diskCache
  end.

(* ------------------------------------------------------------------ *)
(** ** Server order creation (part_006) *)

Record serverOrderModel := mkServerOrderModel {
  so_ID : tfval string;
  so_ProductID : tfval string;
  so_Dist : tfval string;
  so_Location : tfval string;
  so_Keys : tfval (list string);
  so_Password : tfval string;
  so_Addons : tfval (list string);
  so_Test : tfval bool;
  so_TransactionID : tfval string;
  so_Status : tfval string;
  so_ServerNumber : tfval Z;
  so_ServerIP : tfval string
}.

(** [client.OrderParams] *)
Record OrderParams := mkOrderParams {
  op_ProductID : string;
  op_Dist : option string;
  op_Location : option string;
  op_Password : option string;
  op_Keys : list string;
  op_Addons : list string;
  op_Test : bool
}.

(** [optString] *)
Definition optString (v : tfval string) : option string :=
  if known v then Some (ValueString v) else None.

(** The state [Create] writes from the order transaction. *)
Definition order_state (plan : serverOrderModel) (tx : Transaction) : serverOrderModel :=
  {| so_ID := TVal (tx_ID tx); so_ProductID := so_ProductID plan;
     so_Dist := so_Dist plan; so_Location := so_Location plan;
     so_Keys := so_Keys plan; so_Password := so_Password plan;
     so_Addons := so_Addons plan; so_Test := so_Test plan;
     so_TransactionID := TVal (tx_ID tx); so_Status := TVal (tx_Status tx);
     so_ServerNumber := match tx_ServerNumber tx with Some n => TVal n | None => TNull end;
     so_ServerIP := TVal (tx_ServerIP tx) |}.

(** [serverOrderResource.Create]: [OrderServer] answers the order ([inl] an
    error message, [inr] the transaction); [now] is the instant
    [setCachedTransaction] reads after the call.  The result is the
    diagnostics, the state set, and the cache. *)
Definition serverOrderCreate (OrderServer : OrderParams -> string + Transaction)
  (cache : tx_cache) (now : Z) (plan : serverOrderModel)
  : (list diag * option serverOrderModel) * tx_cache :=
  let keys := mustStringSlice (so_Keys plan) in
  let addons := mustStringSlice (so_Addons plan) in
  let params := mkOrderParams (ValueString (so_ProductID plan)) (optString (so_Dist plan))
                  (optString (so_Location plan)) (optString (so_Password plan)) keys addons
                  (negb (match so_Test plan with TNull => true | _ => false end) &&
                   ValueBool (so_Test plan))%bool in
  match OrderServer params with
  | inl e => (([AddError "order failed" e], None), cache)
  | inr tx => (([], Some (order_state plan tx)), setCachedTransaction cache now (tx_ID tx) tx)
  end.

(** The [id] argument [serverOrderRead] takes from a stored state: [None] for a
    null ID, else [state.ID.ValueString()]. *)
Definition read_id (v : tfval string) : option string :=
  match v with TNull => None | _ => Some (ValueString v) end.

Close Scope Z_scope.

(* ------------------------------------------------------------------ *)
(** ** Provider configuration and the state scan (provider.go, helper.go) *)

(** [firstNonEmpty(vals...)] *)
Fixpoint firstNonEmpty (vals : list string) : string :=
  match vals with
  | [] => ""
  | v :: vs => if String.eqb v "" then firstNonEmpty vs else v
  end.

(** A JSON value as [encoding/json] decodes it into [interface{}]; numbers
    ([float64]) are never inspected by the scan and are kept abstract as [Z]. *)
#[warnings="-register-all"]
Inductive json :=
  | JNull
  | JBool (b : bool)
  | JNumber (n : Z)
  | JString (s : string)
  | JArray (xs : list json)
  | JObject (fields : list (string * json)).

(** [m[k]] on a decoded object: with duplicate keys the last one wins. *)
Definition obj_get (fields : list (string * json)) (k : string) : option json :=
  fold_left (fun acc '(k', v) => if String.eqb k' k then Some v else acc) fields None.

(** The type assertions [.(string)], [.([]interface{})],
    [.(map[string]interface{})]. *)
Definition as_string (v : option json) : option string :=
  match v with Some (JString s) => Some s | _ => None end.
Definition as_array (v : option json) : option (list json) :=
  match v with Some (JArray xs) => Some xs | _ => None end.
Definition as_object (v : option json) : option (list (string * json)) :=
  match v with Some (JObject fs) => Some fs | _ => None end.

(** The body of [for _, instance := range instances]. *)
Definition scan_instance (usedIPs : gmap string bool) (instance : json)
  : gmap string bool :=
  match instance with
  | JObject inst =>
      match as_object (obj_get inst "attributes") with
      | None => usedIPs
      | Some attributes =>
          match as_string (obj_get attributes "local_ip") with
          | Some localIP =>
              if (negb (String.eqb localIP "") && String.prefix "10.1.0." localIP)%bool
              then <[localIP := true]> usedIPs else usedIPs
          | None => usedIPs
          end
      end
  | _ => usedIPs
  end.

(** The body of [for _, resource := range resources]. *)
Definition scan_resource (usedIPs : gmap string bool) (resource : json)
  : gmap string bool :=
  match resource with
  | JObject res =>
      match as_string (obj_get res "type") with
      | Some resourceType =>
          if String.eqb resourceType "hrobot_configuration" then
            match as_array (obj_get res "instances") with
            | Some instances => fold_left scan_instance instances usedIPs
            | None => usedIPs
            end
          else usedIPs
      | None => usedIPs
      end
  | _ => usedIPs
  end.

(** [scanStateForUsedIPs]: [pulled] is the decoded output of
    [tofu state pull] / [terraform state pull]; [None] when neither tool is
    found, the command fails or its output is not JSON.  A JSON [null]
    decodes to a nil map, any other non-object fails [json.Unmarshal]. *)
Definition scanStateForUsedIPs (pulled : option json) : gmap string bool :=
  match pulled with
  | Some (JObject state) =>
      match as_array (obj_get state "resources") with
      | Some resources => fold_left scan_resource resources ∅
      | None => ∅
      end
  | _ => ∅
  end.

(** The path the scan follows: [ip] is the [local_ip] string of an instance of
    an [hrobot_configuration] resource of the state. *)
Definition state_local_ip (j : json) (ip : string) : Prop :=
  exists state resources res instances inst attributes,
    j = JObject state /\
    obj_get state "resources" = Some (JArray resources) /\
    JObject res ∈ resources /\
    obj_get res "type" = Some (JString "hrobot_configuration") /\
    obj_get res "instances" = Some (JArray instances) /\
    JObject inst ∈ instances /\
    obj_get inst "attributes" = Some (JObject attributes) /\
    obj_get attributes "local_ip" = Some (JString ip).

Record providerConfig := mkProviderConfig {
  cfg_Username : tfval string;
  cfg_Password : tfval string;
  cfg_BaseURL : tfval string;
  cfg_TimeoutSeconds : tfval Z
}.

(** What [Configure] hands to the resources: the client settings and the
    seeded [UsedIPs]. *)
Record providerData := mkProviderData {
  pd_BaseURL : string;
  pd_Username : string;
  pd_Password : string;
  pd_Timeout : Z;
  pd_UsedIPs : gmap string bool
}.

(** Go [int64] arithmetic wraps around. *)
Definition to_int64 (z : Z) : Z :=
  (z + 2 ^ 63) mod 2 ^ 64 - 2 ^ 63.

(** [hrobotProvider.Configure] with the environment [getenv] and the decoded
    state [pulled]; [inl] the diagnostics of a failed configuration. *)
Definition providerConfigure (cfg : providerConfig) (getenv : string -> string)
  (pulled : option json) : list diag + providerData :=
  let username := firstNonEmpty [ValueString (cfg_Username cfg); getenv "HROBOT_USERNAME"] in
  let password := firstNonEmpty [ValueString (cfg_Password cfg); getenv "HROBOT_PASSWORD"] in
  if (String.eqb username "" || String.eqb password "")%bool then
    inl [AddError "Missing credentials" "Set username/password or HROBOT_USERNAME/HROBOT_PASSWORD"]
  else
    let base := if String.eqb (ValueString (cfg_BaseURL cfg)) ""
                then "https://robot-ws.your-server.de" else ValueString (cfg_BaseURL cfg) in
    let timeout :=
      if (known (cfg_TimeoutSeconds cfg) && (0 <? ValueInt64 (cfg_TimeoutSeconds cfg))%Z)%bool
      then to_int64 (ValueInt64 (cfg_TimeoutSeconds cfg) * second)
      else (30 * second)%Z in
    inr (mkProviderData base username password timeout (scanStateForUsedIPs pulled)).

(* ------------------------------------------------------------------ *)
(** ** Concrete provider inputs *)

(** An instance of an [hrobot_configuration] resource as [tofu state pull]
    prints it. *)
Definition example_instance (ip : string) : json :=
  JObject [("schema_version", JNumber 0%Z);
           ("attributes", JObject [("local_ip", JString ip);
                                   ("server_ip", JString "203.0.113.7")])].

(** A pulled state with a server order and a configuration resource holding
    10.1.0.2 and 10.1.0.3. *)
Definition example_state : json :=
  JObject [("version", JNumber 4%Z);
           ("resources", JArray [
              JObject [("type", JString "hrobot_server_order");
                       ("instances", JArray [])];
              JObject [("type", JString "hrobot_configuration");
                       ("name", JString "node");
                       ("instances", JArray [example_instance "10.1.0.2";
                                             example_instance "10.1.0.3"])]])].

(** Provider block with credentials and nothing else; an empty environment. *)
Definition example_config : providerConfig :=
  mkProviderConfig (TVal "robot-user") (TVal "robot-pass") TNull TNull.

Definition empty_env : string -> string := fun _ => "".

(** A server order plan and the transaction Robot answers it with. *)
Definition example_order_plan : serverOrderModel :=
  mkServerOrderModel TUnknown (TVal "AX41") (TVal "Rescue system") (TVal "FSN1")
    (TVal ["aa:bb:cc"]) TNull (TVal []) (TVal true) TUnknown TUnknown TUnknown TUnknown.

Definition example_order_tx : Transaction :=
  mkTransaction "B20250101-1" "ready" (Some 2345678%Z) "203.0.113.7".

(** Calls that need an SSH session to the server. *)
Definition ssh_call (c : call) : bool :=
  match c with Connect _ _ | Run _ | Upload _ _ _ => true | _ => false end.

(** Calls that only change Robot metadata (name, vSwitch membership). *)
Definition metadata_call (c : call) : bool :=
  match c with SetServerName _ _ | AddServerToVSwitch _ _ => true | _ => false end.

(** [c] was issued, after the calls [h], and answered with success. *)
Definition issued_ok (respond : list call -> call -> resp) (c : call) (calls : list call)
  : Prop :=
  exists h rest out, calls = (h ++ c :: rest)%list /\ respond h c = ROk out.

(** The outcome of a [Create] whose plan lists no rescue keys: an error and
    no state, no SSH call issued, and, when every call succeeds, the
    hardware reset of server [sn] among the calls. *)
Definition nokeys_outcome (respond : list call -> call -> resp) (sn : Z) (w : World)
  (x : op_result * World) : Prop :=
  HasError (diags (fst x)) = true /\ new_state (fst x) = None /\
  exists l, (Calls (snd x) = Calls w ++ l)%list /\ Forall (fun c => ssh_call c = false) l /\
    ((forall h c, exists o, respond h c = ROk o) -> Reset sn "hw" ∈ l).

(** A configuration plan without [rescue_key_fps]. *)
Definition plan_nokeys : configurationModel :=
  mkConfigurationModel TUnknown (TVal 2345678%Z)
    (TVal "203.0.113.7") (TVal "node-1") TNull TNull TNull
    TNull TUnknown TNull (TVal "amd64") (TVal "s3cret") TNull TNull TNull.

(* ================================================================== *)
(** * Proofs *)

(** ** Allocator *)

Lemma is_used_insert_true (m : gmap string bool) (k x : string) :
  is_used (<[k := true]> m) x = if decide (x = k) then true else is_used m x.
Proof.
  unfold is_used. case_decide as Hx.
  - subst. by rewrite lookup_insert_eq.
  - by rewrite lookup_insert_ne by congruence.
Qed.

Lemma is_used_delete (m : gmap string bool) (k x : string) :
  is_used (delete k m) x = if decide (x = k) then false else is_used m x.
Proof.
  unfold is_used. case_decide as Hx.
  - subst. by rewrite lookup_delete_eq.
  - by rewrite lookup_delete_ne by congruence.
Qed.

Lemma ip_of_inj (i j : nat) : ip_of i = ip_of j -> i = j.
Proof.
  unfold ip_of. intros H. apply (inj (String.append "10.1.0.")) in H.
  by apply (inj pretty) in H.
Qed.

Lemma scan_free_some (fuel i j : nat) (used : gmap string bool) :
  scan_free fuel i used = Some j ->
  i <= j < i + fuel /\ is_used used (ip_of j) = false /\
  (forall k, i <= k < j -> is_used used (ip_of k) = true).
Proof.
  revert i. induction fuel as [|fuel IH]; intros i; simpl; [discriminate|].
  destruct (is_used used (ip_of i)) eqn:Hi.
  - intros Hs. destruct (IH (S i) Hs) as (Hr & Hf & Hlow).
    split; [lia|]. split; [done|].
    intros k Hk. destruct (decide (k = i)) as [->|Hne]; [done|]. apply Hlow; lia.
  - intros [= <-]. split; [lia|]. split; [done|]. intros k Hk; lia.
Qed.

Lemma scan_free_none (fuel i : nat) (used : gmap string bool) :
  scan_free fuel i used = None ->
  forall k, i <= k < i + fuel -> is_used used (ip_of k) = true.
Proof.
  revert i. induction fuel as [|fuel IH]; intros i; simpl; [intros _ k Hk; lia|].
  destruct (is_used used (ip_of i)) eqn:Hi; [|discriminate].
  intros Hs k Hk. destruct (decide (k = i)) as [->|Hne]; [done|].
  apply (IH (S i) Hs); lia.
Qed.

Lemma scan_free_ext (fuel i : nat) (m1 m2 : gmap string bool) :
  (forall x, is_used m1 x = is_used m2 x) ->
  scan_free fuel i m1 = scan_free fuel i m2.
Proof.
  intros Hext. revert i. induction fuel as [|fuel IH]; intros i; simpl; [done|].
  rewrite Hext. destruct (is_used m2 (ip_of i)); [apply IH|done].
Qed.

Lemma GetNextAvailableIP_inr (used used' : gmap string bool) (ip : string) :
  GetNextAvailableIP used = (inr ip, used') ->
  is_used used ip = false /\ used' = <[ip := true]> used.
Proof.
  unfold GetNextAvailableIP. destruct (scan_free 126 2 used) as [i|] eqn:Hs;
    [|discriminate].
  intros [= <- <-]. split; [|done]. by apply scan_free_some in Hs as (_ & ? & _).
Qed.

Lemma GetNextAvailableIP_inl (used used' : gmap string bool) (e : string) :
  GetNextAvailableIP used = (inl e, used') -> used' = used.
Proof.
  unfold GetNextAvailableIP. destruct (scan_free 126 2 used); [discriminate|].
  by intros [= _ <-].
Qed.

(** Allocation only ever adds addresses to the in-use set. *)
Lemma GetNextAvailableIP_mono (used : gmap string bool) (x : string) :
  is_used used x = true -> is_used (snd (GetNextAvailableIP used)) x = true.
Proof.
  unfold GetNextAvailableIP. destruct (scan_free 126 2 used); simpl; [|done].
  rewrite is_used_insert_true. by case_decide.
Qed.

Lemma GetNextAvailableIP_ext (m1 m2 : gmap string bool) :
  (forall x, is_used m1 x = is_used m2 x) ->
  fst (GetNextAvailableIP m1) = fst (GetNextAvailableIP m2) /\
  (forall x, is_used (snd (GetNextAvailableIP m1)) x =
             is_used (snd (GetNextAvailableIP m2)) x).
Proof.
  intros Hext. unfold GetNextAvailableIP. rewrite (scan_free_ext _ _ m1 m2 Hext).
  destruct (scan_free 126 2 m2); simpl; split; try done.
  intros x. rewrite !is_used_insert_true. by case_decide.
Qed.

Lemma acquire_n_ext (n : nat) (m1 m2 : gmap string bool) :
  (forall x, is_used m1 x = is_used m2 x) ->
  fst (acquire_n n m1) = fst (acquire_n n m2).
Proof.
  revert m1 m2. induction n as [|n IH]; intros m1 m2 Hext; simpl; [done|].
  destruct (GetNextAvailableIP_ext m1 m2 Hext) as [Hfst Hsnd].
  destruct (GetNextAvailableIP m1) as [r1 u1] eqn:E1.
  destruct (GetNextAvailableIP m2) as [r2 u2] eqn:E2. simpl in *. subst r2.
  specialize (IH u1 u2 Hsnd).
  destruct (acquire_n n u1) as [rs1 v1], (acquire_n n u2) as [rs2 v2].
  simpl in *. by subst.
Qed.

(** Every address handed out by a run of acquisitions was free when the run
    started, and no address is handed out twice. *)
Lemma acquire_n_fresh_nodup (n : nat) (used : gmap string bool) :
  (forall ip, ip ∈ returned (fst (acquire_n n used)) -> is_used used ip = false) /\
  NoDup (returned (fst (acquire_n n used))).
Proof.
  revert used. induction n as [|n IH]; intros used; simpl.
  - split; [intros ip Hin; inversion Hin|constructor].
  - destruct (GetNextAvailableIP used) as [r used1] eqn:E.
    destruct (IH used1) as [Hfresh Hnd].
    destruct (acquire_n n used1) as [rs used2] eqn:Ea. simpl in *.
    destruct r as [e|ip0].
    + apply GetNextAvailableIP_inl in E. subst used1. by split.
    + apply GetNextAvailableIP_inr in E as [Hfree ->]. simpl. split.
      * intros ip Hin. apply elem_of_cons in Hin as [->|Hin]; [done|].
        specialize (Hfresh ip Hin). rewrite is_used_insert_true in Hfresh.
        by case_decide.
      * constructor; [|done]. intros Hin. specialize (Hfresh ip0 Hin).
        rewrite is_used_insert_true in Hfresh. by case_decide.
Qed.

(** C2: any run of [GetNextAvailableIP] calls with no release in between hands
    out pairwise distinct addresses; when every address 10.1.0.2..10.1.0.127 is
    in use, the call returns the exhaustion error, no address, and leaves the
    in-use set alone; from an empty pool the first 126 calls succeed and the
    127th reports exhaustion. *)
Theorem GetNextAvailableIP_distinct_and_exhaustion :
  (forall (n : nat) (used : gmap string bool),
     NoDup (returned (fst (acquire_n n used)))) /\
  (forall used : gmap string bool,
     (forall j, 2 <= j <= 127 -> is_used used (ip_of j) = true) ->
     GetNextAvailableIP used = (inl ip_exhausted_msg, used)) /\
  (length (returned (fst (acquire_n 126 ∅))) = 126 /\
   last (fst (acquire_n 127 ∅)) = Some (inl ip_exhausted_msg)).
Proof.
  split; [intros n used; apply acquire_n_fresh_nodup|]. split.
  - intros used Hall. unfold GetNextAvailableIP.
    destruct (scan_free 126 2 used) as [i|] eqn:Hs; [|done].
    apply scan_free_some in Hs as (Hr & Hf & _).
    rewrite Hall in Hf by lia. discriminate.
  - split; vm_compute; reflexivity.
Qed.

Lemma GetNextAvailableIP_distinct_and_exhaustion_witness :
  (forall j, 2 <= j <= 127 ->
     is_used (used_of (map ip_of (seq 2 126))) (ip_of j) = true) /\
  GetNextAvailableIP (used_of (map ip_of (seq 2 126)))
    = (inl ip_exhausted_msg, used_of (map ip_of (seq 2 126))).
Proof.
  assert (Hall : forall j, 2 <= j <= 127 ->
     is_used (used_of (map ip_of (seq 2 126))) (ip_of j) = true).
  { intros j Hj.
    assert (Hin : j ∈ seq 2 126) by (apply elem_of_seq; lia).
    assert (Hgen : forall l, j ∈ l -> is_used (used_of (map ip_of l)) (ip_of j) = true).
    { induction l as [|a l IH]; simpl; intros Hl; [inversion Hl|].
      rewrite is_used_insert_true. case_decide; [done|].
      apply IH. apply elem_of_cons in Hl as [->|Hl]; [done|done]. }
    by apply Hgen. }
  split; [exact Hall|].
  apply (proj1 (proj2 GetNextAvailableIP_distinct_and_exhaustion)). exact Hall.
Defined.

(** C6: [GetNextAvailableIP] returns the lowest free address of 10.1.0.2..127
    (and marks it used); with 10.1.0.2, 10.1.0.3 and 10.1.0.5 held it returns
    10.1.0.4; acquire, release, acquire returns the same address twice, from
    any pool and in particular from the empty one. *)
Theorem GetNextAvailableIP_lowest_free :
  (forall used : gmap string bool,
     match GetNextAvailableIP used with
     | (inr ip, used') =>
         exists i, 2 <= i <= 127 /\ ip = ip_of i /\ is_used used ip = false /\
           (forall j, 2 <= j < i -> is_used used (ip_of j) = true) /\
           used' = <[ip := true]> used
     | (inl e, used') =>
         e = ip_exhausted_msg /\ used' = used /\
         forall j, 2 <= j <= 127 -> is_used used (ip_of j) = true
     end) /\
  fst (GetNextAvailableIP (used_of ["10.1.0.2"; "10.1.0.3"; "10.1.0.5"]))
    = inr "10.1.0.4" /\
  (forall used : gmap string bool,
     match GetNextAvailableIP used with
     | (inr ip, used1) => fst (GetNextAvailableIP (ReleaseIP used1 ip)) = inr ip
     | (inl _, _) => True
     end) /\
  (fst (GetNextAvailableIP ∅) = inr "10.1.0.2" /\
   fst (GetNextAvailableIP (ReleaseIP (snd (GetNextAvailableIP ∅)) "10.1.0.2"))
     = inr "10.1.0.2").
Proof.
  split; [|split; [vm_compute; reflexivity|split; [|split; vm_compute; reflexivity]]].
  - intros used. unfold GetNextAvailableIP.
    destruct (scan_free 126 2 used) as [i|] eqn:Hs.
    + apply scan_free_some in Hs as (Hr & Hf & Hlow). exists i.
      repeat split; try lia; done.
    + repeat split. intros j Hj. apply (scan_free_none 126 2 used Hs). lia.
  - intros used. unfold GetNextAvailableIP at 1.
    destruct (scan_free 126 2 used) as [i|] eqn:Hs; [|done].
    pose proof (scan_free_some _ _ _ _ Hs) as (Hr & Hf & Hlow). simpl.
    assert (Hext : forall x, is_used (ReleaseIP (<[ip_of i := true]> used) (ip_of i)) x
                             = is_used used x).
    { intros x. unfold ReleaseIP. rewrite is_used_delete, is_used_insert_true.
      case_decide; by subst. }
    rewrite (proj1 (GetNextAvailableIP_ext _ _ Hext)).
    unfold GetNextAvailableIP. by rewrite Hs.
Qed.

(** C9: releasing an address that is not in use leaves the in-use set as it
    was, and every later run of acquisitions hands out exactly what it would
    have handed out without the release. *)
Theorem ReleaseIP_unheld_noop (used : gmap string bool) (ip : string)
  (Hfree : is_used used ip = false) :
  (forall x, is_used (ReleaseIP used ip) x = is_used used x) /\
  (forall n, fst (acquire_n n (ReleaseIP used ip)) = fst (acquire_n n used)).
Proof.
  assert (Hext : forall x, is_used (ReleaseIP used ip) x = is_used used x).
  { intros x. unfold ReleaseIP. rewrite is_used_delete. case_decide; by subst. }
  split; [done|]. intros n. by apply acquire_n_ext.
Qed.

Lemma ReleaseIP_unheld_noop_witness :
  is_used (used_of ["10.1.0.2"]) "10.1.0.9" = false /\
  fst (acquire_n 2 (ReleaseIP (used_of ["10.1.0.2"]) "10.1.0.9"))
    = fst (acquire_n 2 (used_of ["10.1.0.2"])).
Proof.
  split; [vm_compute; reflexivity|].
  apply (proj2 (ReleaseIP_unheld_noop (used_of ["10.1.0.2"]) "10.1.0.9"
                  ltac:(vm_compute; reflexivity))).
Defined.

(** ** Reachability waiter *)

Open Scope Z_scope.

Section WaitTCPProofs.
Variable dial : Z -> bool * Z.
Hypothesis Hnever : forall t, fst (dial t) = false.
Hypothesis Hdur : forall t, 0 <= snd (dial t) <= dial_timeout.

(** Against an endpoint that never accepts, the loop ends with the timeout
    error at an instant [t] past the deadline: either right away (the loop
    was entered at or after the deadline) or within one attempt plus one
    sleep after the deadline. *)
Lemma wait_loop_never_accepts (deadline : Z) (fuel : nat) (now : Z) :
  Z.max 0 (deadline - now) + poll_interval <= Z.of_nat fuel * poll_interval ->
  exists t, wait_loop dial fuel deadline now = Some (false, t) /\
    deadline <= t /\ (t = now \/ t < deadline + dial_timeout + poll_interval).
Proof.
  revert now. induction fuel as [|fuel IH]; intros now Hfuel.
  - unfold poll_interval, second in Hfuel. lia.
  - simpl. destruct (now <? deadline) eqn:Hlt.
    + apply Z.ltb_lt in Hlt.
      pose proof (Hnever now) as Hn. pose proof (Hdur now) as Hd.
      destruct (dial now) as [ok d]. simpl in Hn, Hd. subst ok.
      destruct (IH (now + d + poll_interval)) as (t & Ht & Hdl & Hwin).
      { unfold poll_interval, dial_timeout, second in *. lia. }
      exists t. split; [done|]. split; [done|]. right.
      destruct Hwin as [->|Hwin]; [|done].
      unfold poll_interval, dial_timeout, second in *. lia.
    + apply Z.ltb_ge in Hlt. exists now. split; [done|]. split; [lia|by left].
Qed.
End WaitTCPProofs.

(** C8 (as amended): against an endpoint that never accepts connections,
    [waitTCP] returns the timeout error no earlier than the configured timeout
    and strictly before the timeout plus one per-attempt dial timeout (5s) plus
    one poll interval (5s). *)
Theorem waitTCP_timeout_window (dial : Z -> bool * Z) (timeout start : Z)
  (Hnever : forall t, fst (dial t) = false)
  (Hdur : forall t, 0 <= snd (dial t) <= dial_timeout) :
  exists t_end, waitTCP dial timeout start = Some (false, t_end) /\
    start + timeout <= t_end /\
    t_end < start + Z.max timeout 0 + dial_timeout + poll_interval.
Proof.
  unfold waitTCP.
  destruct (wait_loop_never_accepts dial Hnever Hdur (start + timeout)
              (Z.to_nat (timeout / poll_interval) + 2) start) as (t & Ht & Hdl & Hwin).
  { unfold poll_interval, second. rewrite Nat2Z.inj_add.
    destruct (Z.le_gt_cases 0 timeout) as [Hpos|Hneg].
    - rewrite Z2Nat.id by (apply Z.div_pos; lia).
      pose proof (Z.mul_div_le timeout (5 * 1000000000) ltac:(lia)).
      pose proof (Z.mod_pos_bound timeout (5 * 1000000000) ltac:(lia)).
      pose proof (Z.div_mod timeout (5 * 1000000000) ltac:(lia)). lia.
    - rewrite Z2Nat.nonpos by (apply Z.div_le_upper_bound; lia). lia. }
  exists t. split; [done|]. split; [lia|].
  unfold dial_timeout, poll_interval, second in *. lia.
Qed.

Lemma waitTCP_timeout_window_witness :
  exists t_end, waitTCP (fun _ => (false, dial_timeout)) (5 * minute) 0
                  = Some (false, t_end) /\
    0 + 5 * minute <= t_end /\
    t_end < 0 + Z.max (5 * minute) 0 + dial_timeout + poll_interval.
Proof.
  apply (waitTCP_timeout_window (fun _ => (false, dial_timeout)) (5 * minute) 0).
  - intros t. reflexivity.
  - intros t. simpl. unfold dial_timeout, second. lia.
Defined.

(** C8 counterexample: a host that silently drops packets makes every attempt
    last the full 5s dial timeout; with a timeout of 5 minutes and 1 second,
    [waitTCP] returns the error 310s after it started, later than the timeout
    plus one poll interval (306s). *)
Lemma waitTCP_exceeds_timeout_plus_poll :
  waitTCP (fun _ => (false, dial_timeout)) (5 * minute + second) 0
    = Some (false, 310 * second) /\
  310 * second > 5 * minute + second + poll_interval.
Proof. split; vm_compute; reflexivity. Qed.

(** ** Transaction cache *)




Close Scope Z_scope.

(** ** Effects of the resource operations *)

Lemma keeps_ret {A} (a : A) : keeps_ips (mret a : M A).
Proof. intros w. reflexivity. Qed.

Lemma keeps_issue respond (c : call) : keeps_ips (issue respond c).
Proof. intros w. reflexivity. Qed.

Lemma keeps_bind {A B} (m : M A) (k : A -> M B) :
  keeps_ips m -> (forall a, keeps_ips (k a)) -> keeps_ips (x ← m; k x).
Proof.
  intros Hm Hk w. unfold mbind, M_bind.
  specialize (Hm w). destruct (m w) as [a w'] eqn:E. simpl in Hm.
  rewrite Hk. done.
Qed.

Ltac solve_keeps :=
  repeat (cbv zeta; match goal with
  | |- keeps_ips (mbind _ _) => apply keeps_bind; [|intros ?]
  | |- keeps_ips (mret _) => apply keeps_ret
  | |- keeps_ips (issue _ _) => apply keeps_issue
  | |- keeps_ips (match ?x with _ => _ end) => destruct x
  end).

Lemma configure_keeps respond PI PF fp ip plan :
  keeps_ips (configure respond PI PF fp ip plan).
Proof.
  unfold configure, preInstall, probeDisks, preInstall_install, postInstallFirstRun.
  solve_keeps.
Qed.

Lemma Create_configure_facts respond PI PF fp ip plan now (w : World) :
  result_ok (fst (Create_configure respond PI PF fp ip plan now w)) /\
  UsedIPs (snd (Create_configure respond PI PF fp ip plan now w)) = UsedIPs w.
Proof.
  unfold Create_configure, mbind, M_bind.
  pose proof (configure_keeps respond PI PF fp ip plan w) as Hk.
  destruct (configure respond PI PF fp ip plan w) as [[s d] w'] eqn:E.
  simpl in *. destruct (String.eqb s ""); simpl;
    (split; [intros H; (reflexivity || discriminate) | exact Hk]).
Qed.

Lemma Create_vswitch_facts respond PI PF fp ip plan now (w : World) :
  result_ok (fst (Create_vswitch respond PI PF fp ip plan now w)) /\
  UsedIPs (snd (Create_vswitch respond PI PF fp ip plan now w)) = UsedIPs w.
Proof.
  unfold Create_vswitch. destruct (known (VSwitchID plan)); [|apply Create_configure_facts].
  unfold mbind, M_bind, issue. simpl.
  destruct (respond _ _) as [out|e]; simpl.
  - match goal with |- context [Create_configure _ _ _ _ _ _ _ ?w'] =>
      destruct (Create_configure_facts respond PI PF fp ip plan now w') as [H1 H2] end.
    split; [exact H1|rewrite H2; reflexivity].
  - split; [intros _; reflexivity|reflexivity].
Qed.

Lemma Create_name_facts respond PI PF fp ip plan now (w : World) :
  result_ok (fst (Create_name respond PI PF fp ip plan now w)) /\
  UsedIPs (snd (Create_name respond PI PF fp ip plan now w)) = UsedIPs w.
Proof.
  unfold Create_name. destruct (negb _); [|apply Create_vswitch_facts].
  unfold mbind, M_bind, issue. simpl.
  destruct (respond _ _) as [out|e]; simpl.
  - match goal with |- context [Create_vswitch _ _ _ _ _ _ _ ?w'] =>
      destruct (Create_vswitch_facts respond PI PF fp ip plan now w') as [H1 H2] end.
    split; [exact H1|rewrite H2; reflexivity].
  - split; [intros _; reflexivity|reflexivity].
Qed.

(** C10: once [GetNextAvailableIP] has handed [ip] to [Create], [Create] never
    gives it back: whatever happens afterwards the in-use map is the one
    allocation left, [ip] stays marked in use, and a run that reports an error
    (server name, vSwitch or pipeline failure) writes no state for it. *)
Theorem Create_failure_keeps_ip (respond : list call -> call -> resp)
  (PI PF : string) (plan : configurationModel) (now : Z) (w : World)
  (ip : string) (used1 : gmap string bool)
  (Halloc : GetNextAvailableIP (UsedIPs w) = (inr ip, used1)) :
  UsedIPs (snd (Create respond PI PF plan now w)) = used1 /\
  is_used (UsedIPs (snd (Create respond PI PF plan now w))) ip = true /\
  (HasError (diags (fst (Create respond PI PF plan now w))) = true ->
   new_state (fst (Create respond PI PF plan now w)) = None).
Proof.
  unfold Create, mbind, M_bind, acquire_ip. rewrite Halloc. simpl.
  destruct (Create_name_facts respond PI PF (mustStringSlice (RescueKeyFPs plan))
              (ValueString (ServerIP plan)) (set_LocalIP plan (TVal ip)) now
              (mkWorld used1 (Calls w))) as [Hok Hu].
  simpl in Hu. rewrite Hu. split; [done|]. split; [|exact Hok].
  apply GetNextAvailableIP_inr in Halloc as [_ ->].
  rewrite is_used_insert_true. by case_decide.
Qed.

(** C3: [Delete] of a resource holding a [local_ip] never reports an error
    (a failed cancellation is only a warning, so Terraform removes the state)
    and always returns the address to the allocator. *)
Theorem Delete_always_succeeds_and_releases (respond : list call -> call -> resp)
  (state : configurationModel) (w : World) (ip : string)
  (HL : LocalIP state = TVal ip) (Hne : ip <> "") :
  HasError (fst (Delete respond state w)) = false /\
  is_used (UsedIPs (snd (Delete respond state w))) ip = false.
Proof.
  unfold Delete, mbind, M_bind, release_ip, issue. rewrite HL. simpl.
  destruct (String.eqb_spec ip "") as [->|_]; [done|]. simpl.
  assert (Hrel : is_used (ReleaseIP (UsedIPs w) ip) ip = false).
  { unfold ReleaseIP. rewrite is_used_delete. by case_decide. }
  destruct (known (ServerNumber state)); simpl; [|done].
  destruct (respond _ _); simpl; done.
Qed.

Lemma Delete_always_succeeds_and_releases_witness :
  LocalIP prior_state = TVal "10.1.0.5" /\ "10.1.0.5" <> "" /\
  HasError (fst (Delete robot_down_oracle prior_state world0)) = false /\
  is_used (UsedIPs (snd (Delete robot_down_oracle prior_state world0))) "10.1.0.5" = false.
Proof.
  split; [reflexivity|]. split; [discriminate|].
  apply (Delete_always_succeeds_and_releases robot_down_oracle prior_state world0
           "10.1.0.5" eq_refl ltac:(discriminate)).
Defined.

Lemma Create_failure_keeps_ip_witness :
  GetNextAvailableIP (UsedIPs world0) = (inr "10.1.0.2", <["10.1.0.2" := true]> (used_of ["10.1.0.5"])) /\
  HasError (diags (fst (Create robot_down_oracle "" "" (plan_with TNull) 1700000000 world0))) = true /\
  is_used (UsedIPs (snd (Create robot_down_oracle "" "" (plan_with TNull) 1700000000 world0))) "10.1.0.2" = true.
Proof.
  assert (Halloc : GetNextAvailableIP (UsedIPs world0)
                   = (inr "10.1.0.2", <["10.1.0.2" := true]> (used_of ["10.1.0.5"])))
    by (vm_compute; reflexivity).
  split; [exact Halloc|]. split; [vm_compute; reflexivity|].
  exact (proj1 (proj2 (Create_failure_keeps_ip robot_down_oracle "" "" (plan_with TNull)
                          1700000000 world0 "10.1.0.2" _ Halloc))).
Defined.

Lemma Update_reconfigure_LocalIP respond PI PF (plan currentState : configurationModel)
  (w : World) (st : configurationModel) :
  new_state (fst (Update_reconfigure respond PI PF plan currentState w)) = Some st ->
  LocalIP st = LocalIP plan.
Proof.
  unfold Update_reconfigure, mbind, M_bind.
  destruct (configure _ _ _ _ _ _ w) as [[s d] w'].
  destruct (String.eqb s ""); simpl; [|discriminate].
  by intros [= <-].
Qed.

Lemma Update_version_LocalIP respond PI PF (plan currentState : configurationModel)
  (w : World) (ip : string) (st : configurationModel) :
  LocalIP plan = TVal ip -> LocalIP currentState = TVal ip -> ip <> "" ->
  new_state (fst (Update_version respond PI PF plan currentState w)) = Some st ->
  LocalIP st = TVal ip.
Proof.
  intros Hp Hc Hne. unfold Update_version. rewrite Hc. simpl.
  destruct (String.eqb_spec ip "") as [->|_]; [done|]. simpl.
  destruct (known (Version plan)).
  - intros Hs. apply Update_reconfigure_LocalIP in Hs. done.
  - simpl. intros [= <-]. done.
Qed.

Lemma Update_vswitch_LocalIP respond PI PF (plan currentState : configurationModel)
  (w : World) (ip : string) (st : configurationModel) :
  LocalIP plan = TVal ip -> LocalIP currentState = TVal ip -> ip <> "" ->
  new_state (fst (Update_vswitch respond PI PF plan currentState w)) = Some st ->
  LocalIP st = TVal ip.
Proof.
  intros Hp Hc Hne. unfold Update_vswitch.
  destruct (known (VSwitchID plan)); [|by apply Update_version_LocalIP].
  destruct (known (ServerIP currentState)); [|by apply Update_version_LocalIP].
  unfold mbind, M_bind, issue. simpl.
  destruct (respond _ _); simpl; [by apply Update_version_LocalIP|discriminate].
Qed.

(** C7 (as amended): an [Update] whose prior state holds a known, non-empty
    [local_ip] only ever writes a state carrying that same [local_ip], on the
    plain path and on the version-change path alike. *)
Theorem Update_preserves_LocalIP (respond : list call -> call -> resp)
  (PI PF : string) (plan currentState : configurationModel) (w : World) (ip : string)
  (HL : LocalIP currentState = TVal ip) (Hne : ip <> "") :
  forall st, new_state (fst (Update respond PI PF plan currentState w)) = Some st ->
  LocalIP st = TVal ip.
Proof.
  intros st. unfold Update. rewrite HL. simpl.
  assert (Hp : LocalIP (set_LocalIP plan (TVal ip)) = TVal ip) by reflexivity.
  destruct (negb _).
  - unfold mbind, M_bind, issue. simpl.
    destruct (respond _ _); simpl; [|discriminate].
    by apply Update_vswitch_LocalIP.
  - by apply Update_vswitch_LocalIP.
Qed.

Lemma Update_preserves_LocalIP_witness :
  LocalIP prior_state = TVal "10.1.0.5" /\ "10.1.0.5" <> "" /\
  option_map LocalIP
    (new_state (fst (Update (ok_oracle two_disk_listing) "" "" (plan_with (TVal 2%Z))
                       prior_state world0)))
  = Some (TVal "10.1.0.5").
Proof.
  split; [reflexivity|]. split; [discriminate|].
  destruct (new_state (fst (Update (ok_oracle two_disk_listing) "" "" (plan_with (TVal 2%Z))
                              prior_state world0))) as [st|] eqn:E.
  - simpl. f_equal.
    exact (Update_preserves_LocalIP (ok_oracle two_disk_listing) "" "" (plan_with (TVal 2%Z))
             prior_state world0 "10.1.0.5" eq_refl ltac:(discriminate) st E).
  - vm_compute in E. discriminate E.
Defined.

(** C7 counterexample: a prior state whose [local_ip] is the (non-null) empty
    string gets a fresh address from the allocator on the version path. *)
Lemma Update_replaces_empty_LocalIP :
  option_map LocalIP
    (new_state (fst (Update (ok_oracle two_disk_listing) "" "" (plan_with (TVal 1%Z))
                       (prior_state_with_ip (TVal "")) world0)))
  = Some (TVal "10.1.0.2").
Proof. vm_compute. reflexivity. Qed.

(** C1 (code at the failing input): with [version = 1] in both the prior state
    and the plan, an update that only changes [description] re-runs the whole
    provisioning pipeline (rescue activation, reset, disk probe, imaging). *)
Theorem Update_description_only_reprovisions :
  ActivateRescue 2345678 "linux" ["aa:bb:cc"]
    ∈ Calls (snd (Update (ok_oracle two_disk_listing) "" "" (plan_with (TVal 1%Z))
                    prior_state world0)) /\
  Run installimage_cmd
    ∈ Calls (snd (Update (ok_oracle two_disk_listing) "" "" (plan_with (TVal 1%Z))
                    prior_state world0)) /\
  option_map LocalIP
    (new_state (fst (Update (ok_oracle two_disk_listing) "" "" (plan_with (TVal 1%Z))
                       prior_state world0)))
  = Some (TVal "10.1.0.5").
Proof.
  split; [|split]; [apply list_elem_of_In; vm_compute; intuition congruence..|].
  vm_compute. reflexivity.
Qed.

(** ** Disk probe *)

Open Scope list_scope.
Arguments newline : simpl never.

Lemma is_space_newline (c : ascii) : is_space c = false -> Ascii.eqb c newline = false.
Proof. intros H. destruct (Ascii.eqb_spec c newline) as [->|]; [discriminate|done]. Qed.

Lemma split_nl_nonempty (s : string) : split_nl s <> [].
Proof.
  induction s as [|c s IH]; simpl; [discriminate|].
  destruct (split_nl s); [done|]. by destruct (Ascii.eqb c newline).
Qed.

Lemma trim_left_starts_ok (s : string) : starts_ok (trim_left s).
Proof.
  induction s as [|c s IH]; simpl; [done|].
  destruct (is_space c) eqn:E; [done|]. exact E.
Qed.

Lemma trim_right_starts_ok (x : string) : starts_ok x -> starts_ok (trim_right x).
Proof.
  destruct x as [|c x]; simpl; [done|]. intros H.
  rewrite H, andb_false_r. exact H.
Qed.

Lemma split_first_line (x l1 l2 : string) (rest : list string) :
  starts_ok x -> split_nl x = l1 :: l2 :: rest -> has_nonspace l1 = true.
Proof.
  destruct x as [|c x]; simpl; [discriminate|]. intros Hc.
  rewrite (is_space_newline c Hc).
  destruct (split_nl x) as [|l0 ls]; [discriminate|].
  intros [= <- _]. simpl. by rewrite Hc.
Qed.

Lemma trim_right_ends_ok (x : string) : ends_ok (trim_right x).
Proof.
  induction x as [|c x IH]; simpl; [by left|].
  destruct (String.eqb_spec (trim_right x) "") as [Hr|Hr].
  - rewrite Hr. destruct (is_space c) eqn:Hc; simpl; [by left|].
    right. exists (String c ""). cbn [split_nl]. rewrite (is_space_newline c Hc).
    simpl. by rewrite Hc.
  - right. destruct IH as [|[l [Hl Hn]]]; [done|]. simpl.
    pose proof (split_nl_nonempty (trim_right x)) as Hne.
    destruct (split_nl (trim_right x)) as [|l0 ls] eqn:E; [done|].
    destruct (Ascii.eqb c newline).
    + exists l. split; [|done]. rewrite <- Hl. destruct ls; reflexivity.
    + destruct ls as [|l1 ls].
      * exists (String c l0). simpl in Hl. injection Hl as ->. simpl.
        rewrite Hn. split; [done|]. apply orb_true_r.
      * exists l. split; [|done]. rewrite <- Hl. reflexivity.
Qed.

Lemma fields_go_nonempty (s cur : string) :
  (has_nonspace s || negb (String.eqb cur ""))%bool = true -> fields_go s cur <> [].
Proof.
  revert cur. induction s as [|c s IH]; intros cur H; simpl in *.
  - destruct (String.eqb cur ""); [discriminate|done].
  - destruct (is_space c) eqn:Hc; simpl in H.
    + destruct (String.eqb cur "") eqn:Ec; [|done].
      apply IH. rewrite orb_false_r in H. by rewrite H.
    + apply IH. destruct cur; simpl; by rewrite orb_true_r.
Qed.

Lemma Fields_nonempty (s : string) :
  has_nonspace s = true -> exists f r, Fields s = f :: r.
Proof.
  intros H. unfold Fields.
  pose proof (fields_go_nonempty s "") as Hf. rewrite H in Hf.
  destruct (fields_go s "") as [|f r]; [by destruct Hf|]. by exists f, r.
Qed.

(** Two lines after [TrimSpace] always parse: each has a first field. *)
Lemma diskLines_two_parse (s : string) :
  length (diskLines s) = 2 ->
  exists l1 l2 f1 r1 f2 r2,
    diskLines s = [l1; l2] /\ Fields l1 = f1 :: r1 /\ Fields l2 = f2 :: r2.
Proof.
  unfold diskLines, TrimSpace. intros Hlen.
  destruct (split_nl (trim_right (trim_left s))) as [|l1 [|l2 [|l3 rest]]] eqn:E;
    try discriminate.
  pose proof (split_first_line _ l1 l2 [] (trim_right_starts_ok _ (trim_left_starts_ok s)) E)
    as H1.
  destruct (trim_right_ends_ok (trim_left s)) as [Hemp|[l [Hl H2]]].
  { rewrite Hemp in E. discriminate. }
  rewrite E in Hl. injection Hl as <-.
  destruct (Fields_nonempty l1 H1) as [f1 [r1 F1]].
  destruct (Fields_nonempty l2 H2) as [f2 [r2 F2]].
  by exists l1, l2, f1, r1, f2, r2.
Qed.

(** Trace extension. *)
Lemma extends_ret {A} (a : A) : extends_calls (mret a : M A).
Proof. intros w. exists []. by rewrite app_nil_r. Qed.

Lemma extends_issue respond (c : call) : extends_calls (issue respond c).
Proof. intros w. by exists [c]. Qed.

Lemma extends_bind {A B} (m : M A) (k : A -> M B) :
  extends_calls m -> (forall a, extends_calls (k a)) -> extends_calls (x ← m; k x).
Proof.
  intros Hm Hk w. unfold mbind, M_bind.
  destruct (Hm w) as [l1 H1]. destruct (m w) as [a w'] eqn:E. simpl in H1.
  destruct (Hk a w') as [l2 H2]. exists (l1 ++ l2). by rewrite H2, H1, app_assoc.
Qed.

Ltac solve_extends :=
  repeat (cbv zeta; match goal with
  | |- extends_calls (mbind _ _) => apply extends_bind; [|intros ?]
  | |- extends_calls (mret _) => apply extends_ret
  | |- extends_calls (issue _ _) => apply extends_issue
  | |- extends_calls (match ?x with _ => _ end) => destruct x
  end).

Lemma preInstall_install_trace respond PI ip plan drive1 drive2 (w : World) :
  exists rest,
    Calls (snd (preInstall_install respond PI ip plan drive1 drive2 w)) =
    Calls w ++ Upload "/root/setup.conf"
      (buildAutosetupContent (ValueString (ServerName plan)) (ValueString (Arch plan))
         (ValueString (CryptPassword plan))
         (if known (RaidLevel plan) then ValueInt64 (RaidLevel plan) else 1%Z)
         drive1 drive2
         (if known (NoUEFI plan) then ValueBool (NoUEFI plan) else false)) 384%Z :: rest.
Proof.
  unfold preInstall_install. cbv zeta. unfold mbind at 1, M_bind at 1, issue at 1.
  simpl. destruct (respond _ _) as [o|e].
  - match goal with |- exists rest, Calls (snd (?m ?w1)) = _ =>
      assert (He : extends_calls m) by solve_extends;
      destruct (He w1) as [l Hl]; exists l; rewrite Hl; simpl; by rewrite <- app_assoc
    end.
  - exists []. reflexivity.
Qed.

Lemma postInstallFirstRun_extends respond PF fp ip plan :
  extends_calls (postInstallFirstRun respond PF fp ip plan).
Proof. unfold postInstallFirstRun. solve_extends. Qed.

(** With every rescue step answered, [preInstall] is the disk probe run after
    those four calls. *)
Lemma preInstall_reaches_probe respond PI fp ip plan (w : World)
  (Hfp : fp <> [])
  (Hrescue : forall n c, nth_error (rescue_calls fp ip plan) n = Some c ->
     exists out, respond (Calls w ++ take n (rescue_calls fp ip plan)) c = ROk out) :
  preInstall respond PI fp ip plan w =
  probeDisks respond PI ip plan
    (mkWorld (UsedIPs w) (Calls w ++ rescue_calls fp ip plan)).
Proof.
  destruct (Hrescue 0 _ eq_refl) as [o0 H0].
  destruct (Hrescue 1 _ eq_refl) as [o1 H1].
  destruct (Hrescue 2 _ eq_refl) as [o2 H2].
  destruct (Hrescue 3 _ eq_refl) as [o3 H3].
  simpl in H0, H1, H2, H3. rewrite app_nil_r in H0.
  unfold preInstall, mbind, M_bind, issue. simpl.
  rewrite H0. simpl. rewrite H1. simpl. rewrite <- app_assoc. simpl. rewrite H2. simpl.
  destruct fp as [|f fp']; [done|].
  rewrite <- app_assoc. simpl. rewrite H3. simpl.
  unfold rescue_calls. by rewrite <- app_assoc.
Qed.

Lemma probeDisks_invalid_count respond PI ip plan (w1 : World) (s : string) :
  respond (Calls w1) (Run lsblk_cmd) = ROk s -> length (diskLines s) <> 2 ->
  probeDisks respond PI ip plan w1 =
  (("invalid disk count", invalid_disk_count_detail s),
   mkWorld (UsedIPs w1) (Calls w1 ++ [Run lsblk_cmd])).
Proof.
  intros Hp Hlen. apply Nat.eqb_neq in Hlen.
  unfold probeDisks, mbind, M_bind, issue. simpl. rewrite Hp, Hlen. reflexivity.
Qed.

Lemma probeDisks_two_disks respond PI ip plan (w1 : World) (s l1 l2 f1 f2 : string)
  (r1 r2 : list string) :
  respond (Calls w1) (Run lsblk_cmd) = ROk s ->
  diskLines s = [l1; l2] -> Fields l1 = f1 :: r1 -> Fields l2 = f2 :: r2 ->
  probeDisks respond PI ip plan w1 =
  preInstall_install respond PI ip plan ("/dev/" +:+ f1) ("/dev/" +:+ f2)
    (mkWorld (UsedIPs w1) (Calls w1 ++ [Run lsblk_cmd])).
Proof.
  intros Hp Hd F1 F2.
  unfold probeDisks, mbind at 1, M_bind at 1, issue at 1. simpl.
  rewrite Hp, Hd. simpl. rewrite F1, F2. reflexivity.
Qed.

(** [configure] stops at a failed [preInstall] ... *)
Lemma configure_pre_error respond PI PF fp ip plan (w w' : World) (summary err : string) :
  preInstall respond PI fp ip plan w = ((summary, err), w') -> err <> "" ->
  configure respond PI PF fp ip plan w = ((summary, err), w').
Proof.
  intros Hp Hne. unfold configure, mbind at 1, M_bind at 1. rewrite Hp.
  apply String.eqb_neq in Hne. simpl. by rewrite Hne.
Qed.

(** ... and otherwise only appends to the trace [preInstall] left. *)
Lemma configure_after_pre respond PI PF fp ip plan (w : World) :
  exists l : list call,
    Calls (snd (configure respond PI PF fp ip plan w)) =
    Calls (snd (preInstall respond PI fp ip plan w)) ++ l.
Proof.
  unfold configure, mbind at 1, M_bind at 1.
  destruct (preInstall respond PI fp ip plan w) as [[summary err] w'].
  assert (Hk : extends_calls
    (if negb (String.eqb err "") then mret (summary, err) else
     '(summary0, err0) ← postInstallFirstRun respond PF fp ip plan;
     if negb (String.eqb err0 "") then mret (summary0, err0) else mret ("", ""))).
  { solve_extends. apply postInstallFirstRun_extends. }
  exact (Hk w').
Qed.

(** C5: once the rescue system is reached, a probe listing whose line count
    (lines of the trimmed listing) is not 2 stops [configure] with
    "invalid disk count", a detail quoting that count and the raw listing, and a
    trace ending at the probe (no upload, imaging or reboot); a two-line
    listing goes on to upload the autosetup file naming the first field of the
    first line as DRIVE1 and of the second line as DRIVE2. *)
Theorem configure_disk_count (respond : list call -> call -> resp)
  (PI PF : string) (fp : list string) (ip : string) (plan : configurationModel)
  (w : World) (s : string)
  (Hfp : fp <> [])
  (Hrescue : forall n c, nth_error (rescue_calls fp ip plan) n = Some c ->
     exists out, respond (Calls w ++ take n (rescue_calls fp ip plan)) c = ROk out)
  (Hprobe : respond (Calls w ++ rescue_calls fp ip plan) (Run lsblk_cmd) = ROk s) :
  (length (diskLines s) <> 2 ->
   fst (configure respond PI PF fp ip plan w) =
     ("invalid disk count",
      "Expected exactly 2 disks, found " +:+ pretty (length (diskLines s)) +:+
      " disks: " +:+ s) /\
   Calls (snd (configure respond PI PF fp ip plan w)) =
     Calls w ++ rescue_calls fp ip plan ++ [Run lsblk_cmd]) /\
  (length (diskLines s) = 2 ->
   exists l1 l2 f1 r1 f2 r2 rest,
     diskLines s = [l1; l2] /\ Fields l1 = f1 :: r1 /\ Fields l2 = f2 :: r2 /\
     Calls (snd (configure respond PI PF fp ip plan w)) =
       Calls w ++ rescue_calls fp ip plan ++
       Run lsblk_cmd ::
       Upload "/root/setup.conf"
         (buildAutosetupContent (ValueString (ServerName plan)) (ValueString (Arch plan))
            (ValueString (CryptPassword plan))
            (if known (RaidLevel plan) then ValueInt64 (RaidLevel plan) else 1%Z)
            ("/dev/" +:+ f1) ("/dev/" +:+ f2)
            (if known (NoUEFI plan) then ValueBool (NoUEFI plan) else false)) 384%Z
       :: rest).
Proof.
  pose proof (preInstall_reaches_probe respond PI fp ip plan w Hfp Hrescue) as Hpre.
  set (w1 := mkWorld (UsedIPs w) (Calls w ++ rescue_calls fp ip plan)) in Hpre.
  assert (Hp : respond (Calls w1) (Run lsblk_cmd) = ROk s) by exact Hprobe.
  split.
  - intros Hlen.
    rewrite (probeDisks_invalid_count respond PI ip plan w1 s Hp Hlen) in Hpre.
    rewrite (configure_pre_error respond PI PF fp ip plan w _ _ _ Hpre) by discriminate.
    simpl. split; [reflexivity|]. by rewrite <- app_assoc.
  - intros Hlen.
    destruct (diskLines_two_parse s Hlen) as (l1 & l2 & f1 & r1 & f2 & r2 & Hd & F1 & F2).
    rewrite (probeDisks_two_disks respond PI ip plan w1 s l1 l2 f1 f2 r1 r2 Hp Hd F1 F2)
      in Hpre.
    destruct (configure_after_pre respond PI PF fp ip plan w) as [l Hl].
    destruct (preInstall_install_trace respond PI ip plan ("/dev/" +:+ f1) ("/dev/" +:+ f2)
                (mkWorld (UsedIPs w1) (Calls w1 ++ [Run lsblk_cmd]))) as [rest Hr].
    exists l1, l2, f1, r1, f2, r2, (rest ++ l).
    split; [done|]. split; [done|]. split; [done|].
    rewrite Hl, Hpre, Hr. simpl. rewrite <- !app_assoc. reflexivity.
Qed.

Lemma configure_disk_count_witness :
  let fp := ["aa:bb:cc"] in
  let listing := "sda   1.7T disk" +:+ nl +:+ "sdb   1.7T disk" +:+ nl +:+
                 "sdc   1.7T disk" +:+ nl in
  fp <> [] /\
  (length (diskLines listing) <> 2 ->
   fst (configure (ok_oracle listing) "" "" fp "203.0.113.7" prior_state world0) =
     ("invalid disk count",
      "Expected exactly 2 disks, found " +:+ pretty (length (diskLines listing)) +:+
      " disks: " +:+ listing) /\
   Calls (snd (configure (ok_oracle listing) "" "" fp "203.0.113.7" prior_state world0)) =
     Calls world0 ++ rescue_calls fp "203.0.113.7" prior_state ++ [Run lsblk_cmd]).
Proof.
  cbv zeta. split; [discriminate|].
  apply (configure_disk_count (ok_oracle _) "" "" ["aa:bb:cc"] "203.0.113.7" prior_state
           world0 _).
  - discriminate.
  - intros n c Hc. destruct n as [|[|[|[|n]]]]; simpl in Hc;
      try (injection Hc as <-; eexists; vm_compute; reflexivity).
    destruct n; discriminate.
  - vm_compute. reflexivity.
Defined.

(** ** Provider configuration and the state scan *)

Lemma fold_left_is_used {X} (f : gmap string bool -> X -> gmap string bool)
  (Q : X -> Prop) (ip : string) :
  (forall u x, is_used (f u x) ip = true <-> is_used u ip = true \/ Q x) ->
  forall xs u, is_used (fold_left f xs u) ip = true <->
               is_used u ip = true \/ exists x, x ∈ xs /\ Q x.
Proof.
  intros Hf xs. induction xs as [|x xs IH]; intros u; simpl.
  - split; [by left|]. intros [H|(x & Hx & _)]; [done|]. inversion Hx.
  - rewrite IH, Hf. setoid_rewrite elem_of_cons. naive_solver.
Qed.

Lemma is_used_empty (ip : string) : is_used ∅ ip = false.
Proof. reflexivity. Qed.

Lemma scan_instance_is_used (u : gmap string bool) (x : json) (ip : string) :
  is_used (scan_instance u x) ip = true <->
  is_used u ip = true \/
  (exists inst attributes, x = JObject inst /\
     obj_get inst "attributes" = Some (JObject attributes) /\
     obj_get attributes "local_ip" = Some (JString ip) /\
     ip <> "" /\ String.prefix "10.1.0." ip = true).
Proof.
  destruct x as [| | | | |inst]; simpl; try naive_solver.
  destruct (obj_get inst "attributes") as [[| | | | |attributes]|] eqn:Ha;
    simpl; try naive_solver.
  destruct (obj_get attributes "local_ip") as [[| | |s| |]|] eqn:Hl;
    simpl; try naive_solver.
  destruct (String.eqb_spec s "") as [->|Hne]; simpl; [naive_solver|].
  destruct (String.prefix "10.1.0." s) eqn:Hp; simpl.
  - rewrite is_used_insert_true. case_decide; naive_solver.
  - split; [by left|]. intros [H|(? & ? & E1 & E2 & E3 & _ & Hp')]; [done|].
    simplify_eq. congruence.
Qed.

Lemma scan_resource_is_used (u : gmap string bool) (r : json) (ip : string) :
  is_used (scan_resource u r) ip = true <->
  is_used u ip = true \/
  (exists res instances, r = JObject res /\
     obj_get res "type" = Some (JString "hrobot_configuration") /\
     obj_get res "instances" = Some (JArray instances) /\
     exists x, x ∈ instances /\
       (exists inst attributes, x = JObject inst /\
          obj_get inst "attributes" = Some (JObject attributes) /\
          obj_get attributes "local_ip" = Some (JString ip) /\
          ip <> "" /\ String.prefix "10.1.0." ip = true)).
Proof.
  destruct r as [| | | | |res]; simpl; try naive_solver.
  destruct (obj_get res "type") as [[| | |t| |]|] eqn:Ht; simpl; try naive_solver.
  destruct (String.eqb_spec t "hrobot_configuration") as [->|Hne]; simpl.
  - destruct (obj_get res "instances") as [[| | | |instances|]|] eqn:Hi;
      simpl; try naive_solver.
    rewrite (fold_left_is_used scan_instance _ ip
               (fun u x => scan_instance_is_used u x ip)).
    naive_solver.
  - naive_solver.
Qed.

(** The state scan marks an address as in use exactly when it is a non-empty
    [local_ip] in the 10.1.0. range held by an instance of an
    [hrobot_configuration] resource of the pulled state; other resource types,
    other attributes, addresses outside the range and malformed entries are
    skipped. *)
Theorem scanStateForUsedIPs_spec (j : json) (ip : string) :
  is_used (scanStateForUsedIPs (Some j)) ip = true <->
  ip <> "" /\ String.prefix "10.1.0." ip = true /\ state_local_ip j ip.
Proof.
  unfold state_local_ip.
  destruct j as [| | | | |state]; simpl; try naive_solver.
  destruct (obj_get state "resources") as [[| | | |resources|]|] eqn:Hr;
    simpl; try naive_solver.
  rewrite (fold_left_is_used scan_resource _ ip
             (fun u x => scan_resource_is_used u x ip)).
  rewrite is_used_empty. split.
  - intros [H|(x & Hx & res & instances & -> & Ht & Hi & y & Hy &
                inst & attributes & -> & Ha & Hl & Hne & Hp)]; [discriminate|].
    split; [done|]. split; [done|].
    exists state, resources, res, instances, inst, attributes. naive_solver.
  - intros (Hne & Hp & state' & resources' & res & instances & inst & attributes &
              [= <-] & Hr' & Hx & Ht & Hi & Hy & Ha & Hl).
    rewrite Hr in Hr'. injection Hr' as <-.
    right. exists (JObject res). split; [done|].
    exists res, instances. split; [done|]. split; [done|]. split; [done|].
    exists (JObject inst). split; [done|]. exists inst, attributes. done.
Qed.

Lemma prefix_append (s t : string) : String.prefix s (s +:+ t) = true.
Proof.
  induction s as [|a s IH]; simpl; [by destruct t|].
  destruct (ascii_dec a a); [exact IH|congruence].
Qed.

Lemma ip_of_in_range (i : nat) :
  ip_of i <> "" /\ String.prefix "10.1.0." (ip_of i) = true.
Proof. split; [discriminate|apply prefix_append]. Qed.

Lemma acquire_n_ip_of (n : nat) (used : gmap string bool) (ip : string) :
  ip ∈ returned (fst (acquire_n n used)) -> exists i, ip = ip_of i.
Proof.
  revert used. induction n as [|n IH]; intros used; simpl; [intros Hin; inversion Hin|].
  destruct (GetNextAvailableIP used) as [r used1] eqn:E.
  specialize (IH used1).
  destruct (acquire_n n used1) as [rs used2]. simpl in *.
  destruct r as [e|ip0]; [exact IH|].
  unfold GetNextAvailableIP in E. destruct (scan_free 126 2 used) as [i|]; [|discriminate].
  injection E as <- _. intros Hin. apply elem_of_cons in Hin as [->|Hin]; [by exists i|].
  by apply IH.
Qed.

Lemma providerConfigure_inr (cfg : providerConfig) (getenv : string -> string)
  (pulled : option json) (pd : providerData) :
  providerConfigure cfg getenv pulled = inr pd ->
  pd_UsedIPs pd = scanStateForUsedIPs pulled.
Proof.
  unfold providerConfigure. destruct (_ || _)%bool; [discriminate|].
  by intros [= <-].
Qed.

(** The allocator seeded by [Configure] never hands out an address that an
    [hrobot_configuration] instance of the pulled state already holds, over any
    run of allocations. *)
Theorem providerConfigure_allocations_avoid_state (cfg : providerConfig)
  (getenv : string -> string) (j : json) (pd : providerData) (n : nat)
  (Hcfg : providerConfigure cfg getenv (Some j) = inr pd) :
  forall ip, ip ∈ returned (fst (acquire_n n (pd_UsedIPs pd))) -> ~ state_local_ip j ip.
Proof.
  intros ip Hin Hst.
  pose proof (proj1 (acquire_n_fresh_nodup n (pd_UsedIPs pd)) ip Hin) as Hfree.
  destruct (acquire_n_ip_of n (pd_UsedIPs pd) ip Hin) as [i ->].
  rewrite (providerConfigure_inr _ _ _ _ Hcfg) in Hfree.
  destruct (ip_of_in_range i) as [Hne Hp].
  assert (H : is_used (scanStateForUsedIPs (Some j)) (ip_of i) = true)
    by (apply scanStateForUsedIPs_spec; done).
  congruence.
Qed.

Lemma providerConfigure_allocations_avoid_state_witness :
  exists pd, providerConfigure example_config empty_env (Some example_state) = inr pd /\
    returned (fst (acquire_n 2 (pd_UsedIPs pd))) = ["10.1.0.4"; "10.1.0.5"] /\
    ~ state_local_ip example_state "10.1.0.4".
Proof.
  eexists. split; [reflexivity|]. split; [vm_compute; reflexivity|].
  apply (providerConfigure_allocations_avoid_state example_config empty_env
           example_state _ 2 eq_refl).
  vm_compute. apply list_elem_of_In. simpl. tauto.
Defined.

Lemma firstNonEmpty_two (a b : string) :
  firstNonEmpty [a; b] = if String.eqb a "" then b else a.
Proof.
  simpl. destruct (String.eqb a ""); [|done].
  destruct (String.eqb_spec b "") as [->|]; done.
Qed.

(** [Configure] fails with the "Missing credentials" error exactly when the
    username or the password is empty both in the provider block and in the
    environment ([HROBOT_USERNAME] / [HROBOT_PASSWORD]). *)
Theorem providerConfigure_missing_credentials (cfg : providerConfig)
  (getenv : string -> string) (pulled : option json) :
  (exists ds, providerConfigure cfg getenv pulled = inl ds) <->
  (ValueString (cfg_Username cfg) = "" /\ getenv "HROBOT_USERNAME" = "") \/
  (ValueString (cfg_Password cfg) = "" /\ getenv "HROBOT_PASSWORD" = "").
Proof.
  unfold providerConfigure. rewrite !firstNonEmpty_two.
  destruct (String.eqb_spec (ValueString (cfg_Username cfg)) "") as [Hu|Hu];
  destruct (String.eqb_spec (ValueString (cfg_Password cfg)) "") as [Hp|Hp];
  destruct (String.eqb_spec (getenv "HROBOT_USERNAME") "") as [Eu|Eu];
  destruct (String.eqb_spec (getenv "HROBOT_PASSWORD") "") as [Ep|Ep];
  rewrite ?Hu, ?Hp, ?Eu, ?Ep; simpl;
  repeat match goal with
  | H : ?x <> "" |- context [String.eqb ?x ""] =>
      rewrite (proj2 (String.eqb_neq x "") H)
  end; simpl;
  split; try (intros _; eexists; reflexivity); try (intros [ds Hds]; discriminate);
  tauto.
Qed.

Lemma to_int64_small (z : Z) : (0 <= z < 2 ^ 63)%Z -> to_int64 z = z.
Proof.
  intros Hz. unfold to_int64. rewrite Z.mod_small; lia.
Qed.

Lemma to_int64_bound (z : Z) : (-2 ^ 63 <= to_int64 z < 2 ^ 63)%Z.
Proof.
  unfold to_int64. pose proof (Z.mod_pos_bound (z + 2 ^ 63) (2 ^ 64) ltac:(lia)). lia.
Qed.

(** A successful [Configure] takes each credential from the provider block when
    it is non-empty and from the environment otherwise, defaults the base URL
    to the Robot webservice, and sets the HTTP timeout to [timeout_seconds]
    seconds when that is known and positive (30s otherwise); a
    [timeout_seconds] whose nanosecond count does not fit in an [int64] wraps
    around instead of being honoured. *)
Theorem providerConfigure_settings (cfg : providerConfig) (getenv : string -> string)
  (pulled : option json) (pd : providerData)
  (Hcfg : providerConfigure cfg getenv pulled = inr pd) :
  pd_Username pd = (if String.eqb (ValueString (cfg_Username cfg)) ""
                    then getenv "HROBOT_USERNAME" else ValueString (cfg_Username cfg)) /\
  pd_Password pd = (if String.eqb (ValueString (cfg_Password cfg)) ""
                    then getenv "HROBOT_PASSWORD" else ValueString (cfg_Password cfg)) /\
  pd_BaseURL pd = (if String.eqb (ValueString (cfg_BaseURL cfg)) ""
                   then "https://robot-ws.your-server.de" else ValueString (cfg_BaseURL cfg)) /\
  pd_UsedIPs pd = scanStateForUsedIPs pulled /\
  (forall v, cfg_TimeoutSeconds cfg = TVal v -> (0 < v)%Z -> (v * second < 2 ^ 63)%Z ->
     pd_Timeout pd = (v * second)%Z) /\
  (forall v, cfg_TimeoutSeconds cfg = TVal v -> (0 < v)%Z -> (2 ^ 63 <= v * second)%Z ->
     pd_Timeout pd <> (v * second)%Z) /\
  ((forall v, cfg_TimeoutSeconds cfg = TVal v -> (v <= 0)%Z) ->
     pd_Timeout pd = (30 * second)%Z).
Proof.
  unfold providerConfigure in Hcfg. rewrite !firstNonEmpty_two in Hcfg.
  destruct (_ || _)%bool; [discriminate|]. injection Hcfg as <-. simpl.
  split; [done|]. split; [done|]. split; [done|]. split; [done|]. split; [|split].
  - intros v -> Hv Hb. simpl. rewrite (proj2 (Z.ltb_lt 0 v) Hv). simpl.
    apply to_int64_small. unfold second in *. lia.
  - intros v -> Hv Hb. simpl. rewrite (proj2 (Z.ltb_lt 0 v) Hv). simpl.
    pose proof (to_int64_bound (v * second)). lia.
  - intros Hle. destruct (cfg_TimeoutSeconds cfg) as [| |v]; simpl; try done.
    specialize (Hle v eq_refl). rewrite (proj2 (Z.ltb_ge 0 v) Hle). done.
Qed.

Lemma providerConfigure_settings_witness :
  let cfg := mkProviderConfig TNull (TVal "robot-pass") TNull (TVal 60%Z) in
  let env := fun k => if String.eqb k "HROBOT_USERNAME" then "env-user" else "" in
  exists pd, providerConfigure cfg env None = inr pd /\
    pd_Username pd = "env-user" /\ pd_Timeout pd = (60 * second)%Z.
Proof.
  intros cfg env. eexists. split; [reflexivity|].
  destruct (providerConfigure_settings cfg env None _ eq_refl)
    as (Hu & _ & _ & _ & Ht & _ & _).
  split; [exact Hu|]. apply (Ht 60%Z eq_refl); vm_compute; reflexivity.
Defined.

(** ** Transaction cache persistence and the server order resource *)

Open Scope Z_scope.

Lemma trunc_second_bounds (t : Z) : t - second < trunc_second t <= t.
Proof.
  unfold trunc_second, second.
  pose proof (Z.div_mod t 1000000000 ltac:(lia)).
  pose proof (Z.mod_pos_bound t 1000000000 ltac:(lia)). lia.
Qed.

Lemma loadCacheFromDisk_Some_spec (cache : tx_cache) (diskCache : disk_cache) (now : Z) :
  (loadCacheFromDisk cache (Some diskCache) now = None <->
     exists id, diskCache !! id = Some None) /\
  (forall c, loadCacheFromDisk cache (Some diskCache) now = Some c -> forall id,
     c !! id =
     match diskCache !! id with
     | Some (Some (tx, Some lastUpdated)) =>
         if now - lastUpdated <=? cacheExpiry then Some (tx, lastUpdated)
         else cache !! id
     | _ => cache !! id
     end).
Proof.
  unfold loadCacheFromDisk.
  apply (map_fold_weak_ind (fun r m =>
     (r = None <-> exists id, m !! id = Some None) /\
     (forall c, r = Some c -> forall id, c !! id =
       match m !! id with
       | Some (Some (tx, Some lastUpdated)) =>
           if now - lastUpdated <=? cacheExpiry then Some (tx, lastUpdated)
           else cache !! id
       | _ => cache !! id
       end))).
  - split.
    + split; [discriminate|]. intros [id Hid]. by rewrite lookup_empty in Hid.
    + intros c [= <-] id. by rewrite lookup_empty.
  - intros i x m r Hi [IHn IHs].
    destruct r as [c0|]; [destruct x as [[tx parsed]|]|].
    + assert (Hne : forall id, <[i:=Some (tx, parsed)]> m !! id <> Some None).
      { intros id. destruct (decide (id = i)) as [->|Hne].
        - by rewrite lookup_insert_eq.
        - rewrite lookup_insert_ne by congruence. intros H.
          assert (Some c0 = None) by (apply IHn; by exists id). discriminate. }
      assert (Hlk : forall id, id <> i -> c0 !! id =
        match <[i:=Some (tx, parsed)]> m !! id with
        | Some (Some (tx, Some lastUpdated)) =>
            if now - lastUpdated <=? cacheExpiry then Some (tx, lastUpdated)
            else cache !! id
        | _ => cache !! id
        end).
      { intros id Hid. rewrite lookup_insert_ne by congruence. by apply IHs. }
      assert (Hc0i : c0 !! i = cache !! i) by (rewrite (IHs c0 eq_refl i), Hi; done).
      destruct parsed as [lu|].
      * destruct (now - lu <=? cacheExpiry) eqn:Hf.
        -- split; [split; [discriminate|intros [id H]; by apply Hne in H]|].
           intros c [= <-] id. destruct (decide (id = i)) as [->|Hid].
           ++ by rewrite !lookup_insert_eq, Hf.
           ++ rewrite lookup_insert_ne by congruence. by apply Hlk.
        -- split; [split; [discriminate|intros [id H]; by apply Hne in H]|].
           intros c [= <-] id. destruct (decide (id = i)) as [->|Hid].
           ++ by rewrite lookup_insert_eq, Hf.
           ++ by apply Hlk.
      * split; [split; [discriminate|intros [id H]; by apply Hne in H]|].
        intros c [= <-] id. destruct (decide (id = i)) as [->|Hid].
        -- by rewrite lookup_insert_eq.
        -- by apply Hlk.
    + split; [split; [intros _; exists i; by rewrite lookup_insert_eq|done]|].
      intros c [=].
    + split; [split; [intros _|done]|intros c [=]].
      destruct (proj1 IHn eq_refl) as [id Hid]. exists id.
      rewrite lookup_insert_ne; [done|]. intros ->. congruence.
Qed.

(** [loadCacheFromDisk], entry by entry: an unreadable or undecodable file
    leaves the in-memory cache as it is; a file with a JSON null entry makes
    the loop panic; otherwise an id whose entry in the file has a parseable,
    unexpired timestamp takes the file's transaction and instant, and every
    other id (absent from the file, unparseable timestamp, expired) keeps what
    the in-memory cache held, which is never cleared. *)
Theorem loadCacheFromDisk_lookup (cache : tx_cache) (diskCache : disk_cache) (now : Z) :
  loadCacheFromDisk cache None now = Some cache /\
  (loadCacheFromDisk cache (Some diskCache) now = None <->
     exists id, diskCache !! id = Some None) /\
  (forall c, loadCacheFromDisk cache (Some diskCache) now = Some c -> forall id,
     c !! id =
     match diskCache !! id with
     | Some (Some (tx, Some lastUpdated)) =>
         if now - lastUpdated <=? cacheExpiry then Some (tx, lastUpdated)
         else cache !! id
     | _ => cache !! id
     end).
Proof. split; [reflexivity|]. apply loadCacheFromDisk_Some_spec. Qed.

Lemma loadCacheFromDisk_lookup_witness :
  let tx := mkTransaction "tx-1" "ready" (Some 123456) "192.168.1.100" in
  let cache : tx_cache := {[ "tx-2" := (Some tx, 0) ]} in
  let disk : disk_cache := {[ "tx-1" := Some (Some tx, Some (3 * minute));
                              "tx-2" := Some (None, Some 0) ]} in
  exists c, loadCacheFromDisk cache (Some disk) (6 * minute) = Some c /\
    c !! "tx-1" = Some (Some tx, 3 * minute) /\ c !! "tx-2" = Some (Some tx, 0).
Proof.
  intros tx cache disk.
  destruct (loadCacheFromDisk_lookup cache disk (6 * minute)) as (_ & _ & Hs).
  destruct (loadCacheFromDisk cache (Some disk) (6 * minute)) as [c|] eqn:Hl;
    [|vm_compute in Hl; discriminate Hl].
  exists c. split; [reflexivity|].
  rewrite !(Hs c eq_refl). split; vm_compute; reflexivity.
Defined.

(** Restoring the cache from the file [saveCacheToDisk] wrote never panics
    (the file has no null entry), and: a transaction
    the restored cache serves at [t] is one the saved cache also served at [t]
    (whole-second timestamps only make entries look older); conversely an entry
    saved at [lastUpdated] is served after a restart at [now <= t] as long as
    [t] is at least one second inside its expiry window. *)
Theorem cache_disk_roundtrip (cache : tx_cache) (now t : Z) (id : string) :
  exists c, loadCacheFromDisk ∅ (Some (saveCacheToDisk cache)) now = Some c /\
  (forall tx, getCachedTransaction c t id = Some tx ->
              getCachedTransaction cache t id = Some tx) /\
  (forall tx lastUpdated, cache !! id = Some (tx, lastUpdated) -> now <= t ->
     t - lastUpdated + second <= cacheExpiry ->
     getCachedTransaction c t id = Some tx).
Proof.
  destruct (loadCacheFromDisk_Some_spec ∅ (saveCacheToDisk cache) now) as [Hn Hs].
  destruct (loadCacheFromDisk ∅ (Some (saveCacheToDisk cache)) now) as [c|] eqn:Hl.
  2:{ destruct (proj1 Hn eq_refl) as [i Hi]. unfold saveCacheToDisk in Hi.
      rewrite lookup_fmap in Hi. by destruct (cache !! i) as [[]|]. }
  exists c. split; [done|].
  unfold getCachedTransaction. rewrite (Hs c eq_refl id).
  unfold saveCacheToDisk. rewrite lookup_fmap, lookup_empty.
  destruct (cache !! id) as [[tx0 lu]|] eqn:Hc; simpl; [|split; [discriminate|done]].
  pose proof (trunc_second_bounds lu) as Hb.
  split.
  - intros tx. destruct (now - trunc_second lu <=? cacheExpiry); [|discriminate].
    destruct (cacheExpiry <? t - trunc_second lu) eqn:E; [discriminate|].
    apply Z.ltb_ge in E.
    rewrite (proj2 (Z.ltb_ge cacheExpiry (t - lu))) by lia. done.
  - intros tx lastUpdated [= <- <-] Hnow Hexp.
    rewrite (proj2 (Z.leb_le (now - trunc_second lu) cacheExpiry)) by lia.
    rewrite (proj2 (Z.ltb_ge cacheExpiry (t - trunc_second lu))) by lia. done.
Qed.

Lemma cache_disk_roundtrip_witness :
  let tx := mkTransaction "tx-1" "ready" (Some 123456) "192.168.1.100" in
  let cache : tx_cache := {[ "tx-1" := (Some tx, 1500000000) ]} in
  cache !! "tx-1" = Some (Some tx, 1500000000) /\ minute <= 2 * minute /\
  2 * minute - 1500000000 + second <= cacheExpiry /\
  exists c, loadCacheFromDisk ∅ (Some (saveCacheToDisk cache)) minute = Some c /\
    getCachedTransaction c (2 * minute) "tx-1" = Some (Some tx).
Proof.
  intros tx cache.
  assert (Hc : cache !! "tx-1" = Some (Some tx, 1500000000)) by reflexivity.
  assert (H1 : minute <= 2 * minute) by (unfold minute, second; lia).
  assert (H2 : 2 * minute - 1500000000 + second <= cacheExpiry)
    by (unfold cacheExpiry, minute, second; lia).
  split; [exact Hc|]. split; [exact H1|]. split; [exact H2|].
  destruct (cache_disk_roundtrip cache minute (2 * minute) "tx-1") as (c & Hl & _ & Hcomp).
  exists c. split; [exact Hl|]. exact (Hcomp (Some tx) 1500000000 Hc H1 H2).
Defined.

(** A [Read] made within [cacheExpiry] of a successful [Create] of a server
    order with a non-empty transaction id calls the API again exactly when
    the order is still "in process"; otherwise it answers from the cache with
    the status, server number and server IP [Create] wrote. *)
Theorem serverOrderCreate_then_Read
  (OrderServer : OrderParams -> string + Transaction)
  (GetOrderTransaction : Z -> string -> tx_response * Z)
  (cache cache' : tx_cache) (now t : Z) (plan st : serverOrderModel) (ds : list diag)
  (Hc : serverOrderCreate OrderServer cache now plan = ((ds, Some st), cache'))
  (Ht : t - now <= cacheExpiry) (Hid : ValueString (so_ID st) <> "") :
  let r := serverOrderRead GetOrderTransaction cache' t (read_id (so_ID st)) in
  ds = [] /\
  (rr_api_calls r = [] <-> so_Status st <> TVal "in process") /\
  (rr_api_calls r = [] ->
     rr_outcome r = ReadState (ValueString (so_Status st))
                      (match so_ServerNumber st with TVal n => Some n | _ => None end)
                      (ValueString (so_ServerIP st)) /\
     rr_cache r = cache').
Proof.
  unfold serverOrderCreate in Hc. destruct (OrderServer _) as [e|tx]; [discriminate|].
  injection Hc as <- <- <-. simpl in *.
  assert (Hfetch : forall c t0, rr_api_calls
            (fetch_transaction GetOrderTransaction c t0 (tx_ID tx)) = [tx_ID tx]).
  { intros c t0. unfold fetch_transaction.
    destruct (GetOrderTransaction t0 (tx_ID tx)) as [[] ?]; reflexivity. }
  split; [done|].
  destruct (tx_ID tx) as [|a s] eqn:Eid; [done|].
  unfold serverOrderRead, getCachedTransaction, setCachedTransaction.
  rewrite lookup_insert_eq.
  rewrite (proj2 (Z.ltb_ge cacheExpiry (t - now)) Ht). simpl.
  destruct (String.eqb_spec (tx_Status tx) "in process") as [Hs|Hs]; simpl.
  - rewrite Hfetch, Hs. split; [split; [discriminate|congruence]|discriminate].
  - split; [split; [intros _; congruence|done]|].
    intros _. split; [|done]. unfold read_from. by destruct (tx_ServerNumber tx).
Qed.

Lemma serverOrderCreate_then_Read_witness :
  let OS := fun _ : OrderParams => inr example_order_tx : string + Transaction in
  let GOT := fun t (_ : string) => (TxOk example_order_tx, t) in
  let r := serverOrderCreate OS ∅ 0 example_order_plan in
  exists ds st, r = ((ds, Some st), snd r) /\
    rr_api_calls (serverOrderRead GOT (snd r) minute (read_id (so_ID st))) = [].
Proof.
  intros OS GOT r. eexists _, _. split; [reflexivity|].
  apply (proj2 (proj1 (proj2 (serverOrderCreate_then_Read OS GOT ∅ (snd r) 0 minute
           example_order_plan _ _ eq_refl
           ltac:(unfold cacheExpiry, minute, second; lia) ltac:(discriminate))))).
  discriminate.
Defined.

Section WaitTCPLiveness.
Variable dial : Z -> bool * Z.
Hypothesis Hdur : forall t, 0 <= snd (dial t) <= dial_timeout.
Variable opened : Z.
Hypothesis Hopen : forall t, opened <= t -> fst (dial t) = true.

Lemma wait_loop_accepts (fuel : nat) (deadline now : Z) :
  now < deadline -> opened + dial_timeout + poll_interval <= deadline ->
  Z.max 0 (opened - now) + poll_interval <= Z.of_nat fuel * poll_interval ->
  exists t, wait_loop dial fuel deadline now = Some (true, t) /\
    t <= Z.max now (opened + dial_timeout + poll_interval) + dial_timeout.
Proof.
  revert now. induction fuel as [|fuel IH]; intros now Hnow Hdl Hfuel.
  - unfold poll_interval, second in Hfuel. lia.
  - simpl. rewrite (proj2 (Z.ltb_lt now deadline) Hnow).
    pose proof (Hdur now) as Hd.
    destruct (dial now) as [ok d] eqn:Edial. simpl in Hd.
    destruct ok.
    + exists (now + d). split; [done|]. lia.
    + assert (Hlt : now < opened).
      { destruct (Z.lt_ge_cases now opened) as [H|H]; [done|].
        pose proof (Hopen now H) as Ho. rewrite Edial in Ho. discriminate. }
      destruct (IH (now + d + poll_interval)) as (t & Ht & Hb).
      { unfold poll_interval, dial_timeout, second in *. lia. }
      { done. }
      { rewrite Nat2Z.inj_succ in Hfuel. unfold poll_interval, dial_timeout, second in *. lia. }
      exists t. split; [done|]. unfold poll_interval, dial_timeout, second in *. lia.
Qed.
End WaitTCPLiveness.

(** [waitTCP] against an endpoint whose dials take at most the 5s dial
    timeout and which accepts every connection attempted from instant
    [opened] on returns success, provided one dial and one poll interval still
    fit before the deadline after [opened]; it returns at most one dial
    timeout after the later of its start and [opened] + 10s. *)
Theorem waitTCP_reaches_open_port (dial : Z -> bool * Z) (timeout start opened : Z)
  (Hdur : forall t, 0 <= snd (dial t) <= dial_timeout)
  (Hopen : forall t, opened <= t -> fst (dial t) = true)
  (Htimeout : 0 < timeout)
  (Hwin : opened + dial_timeout + poll_interval <= start + timeout) :
  exists t, waitTCP dial timeout start = Some (true, t) /\
    t <= Z.max start (opened + dial_timeout + poll_interval) + dial_timeout.
Proof.
  unfold waitTCP. apply (wait_loop_accepts dial Hdur opened Hopen); [lia|done|].
  rewrite Nat2Z.inj_add, Z2Nat.id by (apply Z.div_pos; unfold poll_interval, second; lia).
  unfold poll_interval, dial_timeout, second in *.
  pose proof (Z.div_mod timeout (5 * 1000000000) ltac:(lia)).
  pose proof (Z.mod_pos_bound timeout (5 * 1000000000) ltac:(lia)). lia.
Qed.

Lemma waitTCP_reaches_open_port_witness :
  let dial := fun t => if t <? 7 * second then (false, second) else (true, second) in
  exists t, waitTCP dial (5 * minute) 0 = Some (true, t) /\
    t <= Z.max 0 (7 * second + dial_timeout + poll_interval) + dial_timeout.
Proof.
  intros dial. apply (waitTCP_reaches_open_port dial (5 * minute) 0 (7 * second)).
  - intros t. unfold dial. destruct (t <? 7 * second); simpl;
      unfold dial_timeout, second; lia.
  - intros t Ht. unfold dial. rewrite (proj2 (Z.ltb_ge t (7 * second)) Ht). reflexivity.
  - unfold minute, second; lia.
  - unfold minute, dial_timeout, poll_interval, second; lia.
Defined.

Close Scope Z_scope.

(* ------------------------------------------------------------------ *)
(** ** The configuration resource: Create, Update and Delete end to end *)

Arguments ReplaceAll : simpl never.
Arguments buildAutosetupContent : simpl never.
Arguments diskLines : simpl never.
Arguments parse_drives : simpl never.
Arguments invalid_disk_count_detail : simpl never.

Lemma issued_ok_app respond c l l' :
  issued_ok respond c l -> issued_ok respond c (l ++ l').
Proof.
  intros (h & rest & out & -> & Hr). exists h, (rest ++ l'), out.
  split; [by rewrite <- app_assoc|done].
Qed.

Lemma append_nonempty_r (s t : string) : t <> "" -> s +:+ t <> "".
Proof. destruct s; simpl; [done|discriminate]. Qed.

Ltac found_ok :=
  match goal with
  | |- issued_ok _ ?c _ =>
      match goal with E : _ ?h c = ROk ?o |- _ =>
        exists h; eexists; exists o; split; [rewrite <- !app_assoc; simpl; reflexivity|exact E]
      end
  end.

Ltac split_resp :=
  match goal with
  | |- context [match ?f ?h ?c with ROk _ => _ | RErr _ => _ end] =>
      destruct (f h c) eqn:?
  end.

Section Success.
Variable respond : list call -> call -> resp.
Hypothesis Herr : forall h c e, respond h c = RErr e -> e <> "".
Variables PI PF : string.

Ltac err_detail := eapply Herr; eassumption.

Lemma preInstall_install_result ip plan d1 d2 (w : World) :
  (fst (fst (preInstall_install respond PI ip plan d1 d2 w)) <> "" /\
   snd (fst (preInstall_install respond PI ip plan d1 d2 w)) <> "") \/
  (fst (preInstall_install respond PI ip plan d1 d2 w) = ("", "") /\
   issued_ok respond (Run installimage_cmd)
     (Calls (snd (preInstall_install respond PI ip plan d1 d2 w)))).
Proof.
  unfold preInstall_install. cbv zeta. unfold mbind, M_bind, issue. simpl.
  repeat (split_resp; simpl);
  first [ left; split; [discriminate|
            first [err_detail | apply append_nonempty_r; discriminate]]
        | right; split; [reflexivity|found_ok] ].
Qed.

Lemma probeDisks_result ip plan (w : World) :
  (fst (fst (probeDisks respond PI ip plan w)) <> "" /\
   snd (fst (probeDisks respond PI ip plan w)) <> "") \/
  (fst (probeDisks respond PI ip plan w) = ("", "") /\
   issued_ok respond (Run installimage_cmd) (Calls (snd (probeDisks respond PI ip plan w)))).
Proof.
  unfold probeDisks, mbind, M_bind, issue. simpl.
  split_resp; simpl; [|left; split; discriminate].
  destruct (negb _); simpl.
  { left. split; [discriminate|]. unfold invalid_disk_count_detail. discriminate. }
  destruct (parse_drives 0 _ "" "") as [line|[d1 d2]]; simpl.
  - left. split; discriminate.
  - apply preInstall_install_result.
Qed.

Lemma preInstall_result fp ip plan (w : World) :
  (fst (fst (preInstall respond PI fp ip plan w)) <> "" /\
   snd (fst (preInstall respond PI fp ip plan w)) <> "") \/
  (fst (preInstall respond PI fp ip plan w) = ("", "") /\
   issued_ok respond (Run installimage_cmd) (Calls (snd (preInstall respond PI fp ip plan w)))).
Proof.
  unfold preInstall, mbind, M_bind, issue. simpl.
  split_resp; simpl; [|left; split; [discriminate|err_detail]].
  split_resp; simpl; [|left; split; [discriminate|err_detail]].
  split_resp; simpl; [|left; split; [discriminate|err_detail]].
  destruct fp as [|f fp']; simpl; [left; split; discriminate|].
  unfold mbind, M_bind, issue. simpl.
  split_resp; simpl; [|left; split; [discriminate|err_detail]].
  apply probeDisks_result.
Qed.

Lemma postInstallFirstRun_result fp ip plan (w : World) :
  (fst (fst (postInstallFirstRun respond PF fp ip plan w)) <> "" /\
   snd (fst (postInstallFirstRun respond PF fp ip plan w)) <> "") \/
  (fst (postInstallFirstRun respond PF fp ip plan w) = ("", "") /\
   issued_ok respond
     (Upload "/root/initialize.sh"
        (ReplaceAll (ReplaceAll PF "LOCALIPADDRESSREPLACEME"
                       (if known (LocalIP plan) then ValueString (LocalIP plan) else ""))
           "# EXTRASCRIPTREPLACEME"
           (if known (ExtraScript plan) then ValueString (ExtraScript plan) else "")) 448)
     (Calls (snd (postInstallFirstRun respond PF fp ip plan w)))).
Proof.
  unfold postInstallFirstRun. destruct fp as [|f fp']; [left; split; discriminate|].
  cbv zeta. unfold mbind, M_bind, issue. simpl.
  repeat (split_resp; simpl);
  first [ left; split; [discriminate|err_detail]
        | right; split; [reflexivity|found_ok] ].
Qed.

Lemma configure_result fp ip plan (w : World) :
  fst (fst (configure respond PI PF fp ip plan w)) <> "" \/
  (fst (configure respond PI PF fp ip plan w) = ("", "") /\
   issued_ok respond (Run installimage_cmd) (Calls (snd (configure respond PI PF fp ip plan w))) /\
   issued_ok respond
     (Upload "/root/initialize.sh"
        (ReplaceAll (ReplaceAll PF "LOCALIPADDRESSREPLACEME"
                       (if known (LocalIP plan) then ValueString (LocalIP plan) else ""))
           "# EXTRASCRIPTREPLACEME"
           (if known (ExtraScript plan) then ValueString (ExtraScript plan) else "")) 448)
     (Calls (snd (configure respond PI PF fp ip plan w)))).
Proof.
  unfold configure, mbind, M_bind.
  destruct (preInstall_result fp ip plan w) as [[Hs He]|[Hr Hi]];
  destruct (preInstall respond PI fp ip plan w) as [[s e] w1]; simpl in *.
  { apply String.eqb_neq in He. rewrite He. simpl. by left. }
  injection Hr as -> ->. simpl.
  destruct (postInstallFirstRun_result fp ip plan w1) as [[Hs He]|[Hr Hu]];
  pose proof (postInstallFirstRun_extends respond PF fp ip plan w1) as [l Hl];
  destruct (postInstallFirstRun respond PF fp ip plan w1) as [[s e] w2]; simpl in *.
  { apply String.eqb_neq in He. rewrite He. simpl. by left. }
  injection Hr as -> ->. simpl. right. split; [done|]. split; [|done].
  rewrite Hl. by apply issued_ok_app.
Qed.

Lemma Create_configure_success fp ip plan now (w : World) (st : configurationModel) :
  new_state (fst (Create_configure respond PI PF fp ip plan now w)) = Some st ->
  issued_ok respond (Run installimage_cmd)
    (Calls (snd (Create_configure respond PI PF fp ip plan now w))) /\
  issued_ok respond
    (Upload "/root/initialize.sh"
       (ReplaceAll (ReplaceAll PF "LOCALIPADDRESSREPLACEME"
                      (if known (LocalIP plan) then ValueString (LocalIP plan) else ""))
          "# EXTRASCRIPTREPLACEME"
          (if known (ExtraScript plan) then ValueString (ExtraScript plan) else "")) 448)
    (Calls (snd (Create_configure respond PI PF fp ip plan now w))).
Proof.
  unfold Create_configure, mbind, M_bind.
  destruct (configure_result fp ip plan w) as [Hs|(Hr & Hi & Hu)];
  destruct (configure respond PI PF fp ip plan w) as [[s d] w1]; simpl in *.
  - apply String.eqb_neq in Hs. rewrite Hs. simpl. discriminate.
  - injection Hr as -> ->. simpl. done.
Qed.

Lemma Create_vswitch_success fp ip plan now (w : World) (st : configurationModel) :
  new_state (fst (Create_vswitch respond PI PF fp ip plan now w)) = Some st ->
  issued_ok respond (Run installimage_cmd)
    (Calls (snd (Create_vswitch respond PI PF fp ip plan now w))) /\
  issued_ok respond
    (Upload "/root/initialize.sh"
       (ReplaceAll (ReplaceAll PF "LOCALIPADDRESSREPLACEME"
                      (if known (LocalIP plan) then ValueString (LocalIP plan) else ""))
          "# EXTRASCRIPTREPLACEME"
          (if known (ExtraScript plan) then ValueString (ExtraScript plan) else "")) 448)
    (Calls (snd (Create_vswitch respond PI PF fp ip plan now w))).
Proof.
  unfold Create_vswitch. destruct (known (VSwitchID plan)); [|apply Create_configure_success].
  unfold mbind, M_bind, issue. simpl.
  split_resp; simpl; [apply Create_configure_success|discriminate].
Qed.

Lemma Create_name_success fp ip plan now (w : World) (st : configurationModel) :
  new_state (fst (Create_name respond PI PF fp ip plan now w)) = Some st ->
  issued_ok respond (Run installimage_cmd)
    (Calls (snd (Create_name respond PI PF fp ip plan now w))) /\
  issued_ok respond
    (Upload "/root/initialize.sh"
       (ReplaceAll (ReplaceAll PF "LOCALIPADDRESSREPLACEME"
                      (if known (LocalIP plan) then ValueString (LocalIP plan) else ""))
          "# EXTRASCRIPTREPLACEME"
          (if known (ExtraScript plan) then ValueString (ExtraScript plan) else "")) 448)
    (Calls (snd (Create_name respond PI PF fp ip plan now w))).
Proof.
  unfold Create_name. destruct (negb _); [|apply Create_vswitch_success].
  unfold mbind, M_bind, issue. simpl.
  split_resp; simpl; [apply Create_vswitch_success|discriminate].
Qed.
End Success.

Ltac contra_ok :=
  let Hok := fresh "Hok" in
  intros Hok; exfalso;
  match goal with E : ?respond ?h ?c = RErr _ |- _ =>
    destruct (Hok h c) as [? ?]; congruence end.

Lemma preInstall_nokeys respond PI ip plan (w : World) :
  fst (fst (preInstall respond PI [] ip plan w)) <> "" /\
  exists l, Calls (snd (preInstall respond PI [] ip plan w)) = Calls w ++ l /\
    Forall (fun c => ssh_call c = false) l /\
    ((forall h c, exists o, respond h c = ROk o) ->
     Reset (ValueInt64 (ServerNumber plan)) "hw" ∈ l).
Proof.
  unfold preInstall, mbind, M_bind, issue. simpl.
  repeat (split_resp; simpl).
  all: (split; [discriminate|]); eexists; (split; [rewrite <- ?app_assoc; reflexivity|]).
  all: (split; [simpl; repeat constructor|]).
  all: first [contra_ok | intros _; simpl; apply list_elem_of_In; simpl; tauto].
Qed.

Lemma configure_nokeys respond PI PF ip plan (w : World) :
  fst (fst (configure respond PI PF [] ip plan w)) <> "" /\
  exists l, Calls (snd (configure respond PI PF [] ip plan w)) = Calls w ++ l /\
    Forall (fun c => ssh_call c = false) l /\
    ((forall h c, exists o, respond h c = ROk o) ->
     Reset (ValueInt64 (ServerNumber plan)) "hw" ∈ l).
Proof.
  destruct (preInstall_nokeys respond PI ip plan w) as (Hs & l & Hl & Hf & Hr).
  unfold configure, mbind, M_bind.
  destruct (preInstall respond PI [] ip plan w) as [[s e] w1]. simpl in *.
  destruct (negb (String.eqb e "")); simpl;
    (split; [first [done|discriminate]|]); by exists l.
Qed.

Lemma Create_configure_nokeys respond PI PF ip plan now (w : World) :
  nokeys_outcome respond (ValueInt64 (ServerNumber plan)) w
    (Create_configure respond PI PF [] ip plan now w).
Proof.
  destruct (configure_nokeys respond PI PF ip plan w) as (Hs & l & Hl & Hf & Hr).
  unfold nokeys_outcome, Create_configure, mbind, M_bind.
  destruct (configure respond PI PF [] ip plan w) as [[s e] w1]. simpl in *.
  destruct (String.eqb_spec s "") as [->|_]; [done|]. simpl.
  split; [done|]. split; [done|]. by exists l.
Qed.

Lemma nokeys_outcome_step respond sn (w : World) (c : call) (x : op_result * World) :
  ssh_call c = false ->
  nokeys_outcome respond sn (mkWorld (UsedIPs w) (Calls w ++ [c])) x ->
  nokeys_outcome respond sn w x.
Proof.
  intros Hc (He & Hn & l & Hl & Hf & Hr). split; [done|]. split; [done|].
  exists (c :: l). split; [rewrite Hl; simpl; by rewrite <- app_assoc|].
  split; [by constructor|]. intros Hok. right. by apply Hr.
Qed.

Lemma Create_vswitch_nokeys respond PI PF ip plan now (w : World) :
  nokeys_outcome respond (ValueInt64 (ServerNumber plan)) w
    (Create_vswitch respond PI PF [] ip plan now w).
Proof.
  unfold Create_vswitch. destruct (known (VSwitchID plan)); [|apply Create_configure_nokeys].
  unfold mbind, M_bind, issue. simpl.
  destruct (respond _ _) as [o|e] eqn:E; simpl.
  - eapply nokeys_outcome_step; [|apply Create_configure_nokeys]. reflexivity.
  - split; [done|]. split; [done|]. exists [AddServerToVSwitch (ValueInt64 (VSwitchID plan))
      (ValueString (ServerIP plan))]. split; [done|]. split; [by repeat constructor|].
    contra_ok.
Qed.

Lemma Create_name_nokeys respond PI PF ip plan now (w : World) :
  nokeys_outcome respond (ValueInt64 (ServerNumber plan)) w
    (Create_name respond PI PF [] ip plan now w).
Proof.
  unfold Create_name. destruct (negb _); [|apply Create_vswitch_nokeys].
  unfold mbind, M_bind, issue. simpl.
  destruct (respond _ _) as [o|e] eqn:E; simpl.
  - eapply nokeys_outcome_step; [|apply Create_vswitch_nokeys]. reflexivity.
  - split; [done|]. split; [done|]. eexists [_]. split; [done|].
    split; [by repeat constructor|]. contra_ok.
Qed.

(** [Create] with no rescue key fingerprints always fails: it reports an
    error, writes no state and never opens an SSH session or runs a command on
    the server; when the pool has a free address and Robot accepts its calls,
    it has already reset the server into the rescue system by then. *)
Theorem Create_without_rescue_keys (respond : list call -> call -> resp) (PI PF : string)
  (plan : configurationModel) (now : Z) (w : World)
  (Hk : mustStringSlice (RescueKeyFPs plan) = []) :
  HasError (diags (fst (Create respond PI PF plan now w))) = true /\
  new_state (fst (Create respond PI PF plan now w)) = None /\
  exists l, Calls (snd (Create respond PI PF plan now w)) = Calls w ++ l /\
    Forall (fun c => ssh_call c = false) l /\
    ((forall h c, exists o, respond h c = ROk o) ->
     (exists ip, fst (GetNextAvailableIP (UsedIPs w)) = inr ip) ->
     Reset (ValueInt64 (ServerNumber plan)) "hw" ∈ l).
Proof.
  unfold Create, mbind, M_bind, acquire_ip. rewrite Hk.
  destruct (GetNextAvailableIP (UsedIPs w)) as [[e|ip] u] eqn:Ea; simpl.
  - split; [done|]. split; [done|]. exists []. split; [by rewrite app_nil_r|].
    split; [constructor|]. intros _ [ip Hip]. discriminate.
  - destruct (Create_name_nokeys respond PI PF (ValueString (ServerIP plan))
                (set_LocalIP plan (TVal ip)) now (mkWorld u (Calls w)))
      as (He & Hn & l & Hl & Hf & Hr).
    split; [done|]. split; [done|]. exists l. split; [done|]. split; [done|].
    intros Hok _. by apply Hr.
Qed.

Lemma Create_without_rescue_keys_witness :
  mustStringSlice (RescueKeyFPs plan_nokeys) = [] /\
  HasError (diags (fst (Create (ok_oracle two_disk_listing) "" "" plan_nokeys 0 world0))) = true /\
  new_state (fst (Create (ok_oracle two_disk_listing) "" "" plan_nokeys 0 world0)) = None /\
  Reset 2345678 "hw" ∈ Calls (snd (Create (ok_oracle two_disk_listing) "" "" plan_nokeys 0 world0)).
Proof.
  split; [reflexivity|].
  destruct (Create_without_rescue_keys (ok_oracle two_disk_listing) "" "" plan_nokeys 0
              world0 eq_refl) as (He & Hn & l & Hl & _ & Hr).
  split; [exact He|]. split; [exact Hn|].
  rewrite Hl. simpl. apply Hr.
  - intros h c. destruct c; simpl; try (eexists; reflexivity).
    destruct (String.eqb _ _); eexists; reflexivity.
  - eexists. vm_compute. reflexivity.
Defined.


Lemma Create_configure_state respond PI PF fp ip plan now (w : World) (st : configurationModel) :
  new_state (fst (Create_configure respond PI PF fp ip plan now w)) = Some st ->
  st = set_ID plan (TVal ("configuration-" +:+ pretty now)).
Proof.
  unfold Create_configure, mbind, M_bind.
  destruct (configure respond PI PF fp ip plan w) as [[s d] w1]; simpl.
  destruct (negb _); simpl; [discriminate|]. congruence.
Qed.

Lemma Create_vswitch_state respond PI PF fp ip plan now (w : World) (st : configurationModel) :
  new_state (fst (Create_vswitch respond PI PF fp ip plan now w)) = Some st ->
  st = set_ID plan (TVal ("configuration-" +:+ pretty now)).
Proof.
  unfold Create_vswitch. destruct (known (VSwitchID plan)); [|apply Create_configure_state].
  unfold mbind, M_bind, issue. simpl.
  split_resp; simpl; [apply Create_configure_state|discriminate].
Qed.

Lemma Create_name_state respond PI PF fp ip plan now (w : World) (st : configurationModel) :
  new_state (fst (Create_name respond PI PF fp ip plan now w)) = Some st ->
  st = set_ID plan (TVal ("configuration-" +:+ pretty now)).
Proof.
  unfold Create_name. destruct (negb _); [|apply Create_vswitch_state].
  unfold mbind, M_bind, issue. simpl.
  split_resp; simpl; [apply Create_vswitch_state|discriminate].
Qed.

Lemma Create_state respond PI PF plan now (w : World) (st : configurationModel) :
  new_state (fst (Create respond PI PF plan now w)) = Some st ->
  exists i, GetNextAvailableIP (UsedIPs w) = (inr (ip_of i), <[ip_of i := true]> (UsedIPs w)) /\
    st = set_ID (set_LocalIP plan (TVal (ip_of i))) (TVal ("configuration-" +:+ pretty now)) /\
    UsedIPs (snd (Create respond PI PF plan now w)) = <[ip_of i := true]> (UsedIPs w).
Proof.
  unfold Create, mbind, M_bind, acquire_ip.
  destruct (GetNextAvailableIP (UsedIPs w)) as [[e|ip] u] eqn:Ea; simpl; [discriminate|].
  intros Hst.
  pose proof (Create_name_facts respond PI PF (mustStringSlice (RescueKeyFPs plan))
                (ValueString (ServerIP plan)) (set_LocalIP plan (TVal ip)) now
                (mkWorld u (Calls w))) as [_ Hu].
  apply Create_name_state in Hst.
  unfold GetNextAvailableIP in Ea. destruct (scan_free 126 2 (UsedIPs w)) as [i|];
    [|discriminate].
  injection Ea as <- <-. exists i. split; [done|]. split; [done|]. exact Hu.
Qed.

(** When every failed call carries a non-empty error, a [Create] that writes a
    state got its address from the allocator, stores it as [local_ip] with the
    ID "configuration-" followed by the time, and on its way ran installimage
    and uploaded the first-boot script with that address and the extra script
    substituted, both with success. *)
Theorem Create_success_provisions (respond : list call -> call -> resp) (PI PF : string)
  (plan : configurationModel) (now : Z) (w : World) (st : configurationModel)
  (Herr : forall h c e, respond h c = RErr e -> e <> "")
  (Hst : new_state (fst (Create respond PI PF plan now w)) = Some st) :
  exists ip, fst (GetNextAvailableIP (UsedIPs w)) = inr ip /\
    st = set_ID (set_LocalIP plan (TVal ip)) (TVal ("configuration-" +:+ pretty now)) /\
    issued_ok respond (Run installimage_cmd) (Calls (snd (Create respond PI PF plan now w))) /\
    issued_ok respond
      (Upload "/root/initialize.sh"
         (ReplaceAll (ReplaceAll PF "LOCALIPADDRESSREPLACEME" ip) "# EXTRASCRIPTREPLACEME"
            (if known (ExtraScript plan) then ValueString (ExtraScript plan) else "")) 448)
      (Calls (snd (Create respond PI PF plan now w))).
Proof.
  destruct (Create_state respond PI PF plan now w st Hst) as (i & Ea & -> & _).
  exists (ip_of i). rewrite Ea. split; [done|]. split; [done|].
  revert Hst. unfold Create, mbind, M_bind, acquire_ip. rewrite Ea. simpl.
  intros H. exact (Create_name_success respond Herr PI PF _ _ (set_LocalIP plan (TVal (ip_of i)))
                     now _ _ H).
Qed.

Lemma Create_success_provisions_witness :
  (forall h c e, ok_oracle two_disk_listing h c = RErr e -> e <> "") /\
  new_state (fst (Create (ok_oracle two_disk_listing) "" "" (plan_with TNull) 1700000000 world0))
    = Some (set_ID (set_LocalIP (plan_with TNull) (TVal "10.1.0.2"))
              (TVal ("configuration-" +:+ pretty 1700000000%Z))) /\
  exists ip, fst (GetNextAvailableIP (UsedIPs world0)) = inr ip /\
    issued_ok (ok_oracle two_disk_listing) (Run installimage_cmd)
      (Calls (snd (Create (ok_oracle two_disk_listing) "" "" (plan_with TNull) 1700000000
                     world0))).
Proof.
  assert (Herr : forall h c e, ok_oracle two_disk_listing h c = RErr e -> e <> "").
  { intros h c e H. destruct c; simpl in H; try discriminate.
    destruct (String.eqb _ _); discriminate. }
  assert (Hst : new_state (fst (Create (ok_oracle two_disk_listing) "" "" (plan_with TNull)
                                  1700000000 world0))
    = Some (set_ID (set_LocalIP (plan_with TNull) (TVal "10.1.0.2"))
              (TVal ("configuration-" +:+ pretty 1700000000%Z)))).
  { vm_compute. reflexivity. }
  split; [exact Herr|]. split; [exact Hst|].
  destruct (Create_success_provisions (ok_oracle two_disk_listing) "" "" (plan_with TNull)
              1700000000 world0 _ Herr Hst) as (ip & Hip & _ & Hi & _).
  exists ip. split; [exact Hip|exact Hi].
Defined.

Lemma Delete_UsedIPs respond (state : configurationModel) (w : World) :
  UsedIPs (snd (Delete respond state w)) =
  if (known (LocalIP state) && negb (String.eqb (ValueString (LocalIP state)) ""))%bool
  then ReleaseIP (UsedIPs w) (ValueString (LocalIP state)) else UsedIPs w.
Proof.
  unfold Delete, mbind, M_bind, release_ip, issue.
  destruct (_ && _)%bool; simpl;
  (destruct (known (ServerNumber state)); simpl; [split_resp; reflexivity|reflexivity]).
Qed.

(** A [Create] that writes a state, followed by a [Delete] of that state,
    leaves every address of the IP pool as in use or free as it was before
    the [Create]. *)
Theorem Create_then_Delete_restores_pool (respond respond' : list call -> call -> resp)
  (PI PF : string) (plan : configurationModel) (now : Z) (w : World)
  (st : configurationModel)
  (Hst : new_state (fst (Create respond PI PF plan now w)) = Some st) :
  forall x, is_used (UsedIPs (snd (Delete respond' st (snd (Create respond PI PF plan now w))))) x
            = is_used (UsedIPs w) x.
Proof.
  destruct (Create_state respond PI PF plan now w st Hst) as (i & Ea & -> & Hu).
  intros x. rewrite Delete_UsedIPs. simpl.
  rewrite Hu. unfold ReleaseIP. rewrite is_used_delete, is_used_insert_true.
  apply GetNextAvailableIP_inr in Ea as [Hfree _].
  case_decide; congruence.
Qed.

Lemma Create_then_Delete_restores_pool_witness :
  new_state (fst (Create (ok_oracle two_disk_listing) "" "" (plan_with TNull) 1700000000 world0))
    = Some (set_ID (set_LocalIP (plan_with TNull) (TVal "10.1.0.2"))
              (TVal ("configuration-" +:+ pretty 1700000000%Z))) /\
  is_used (UsedIPs (snd (Delete robot_down_oracle
     (set_ID (set_LocalIP (plan_with TNull) (TVal "10.1.0.2"))
        (TVal ("configuration-" +:+ pretty 1700000000%Z)))
     (snd (Create (ok_oracle two_disk_listing) "" "" (plan_with TNull) 1700000000 world0)))))
    "10.1.0.2" = is_used (UsedIPs world0) "10.1.0.2".
Proof.
  assert (Hst : new_state (fst (Create (ok_oracle two_disk_listing) "" "" (plan_with TNull)
                                  1700000000 world0))
    = Some (set_ID (set_LocalIP (plan_with TNull) (TVal "10.1.0.2"))
              (TVal ("configuration-" +:+ pretty 1700000000%Z)))).
  { vm_compute. reflexivity. }
  split; [exact Hst|].
  exact (Create_then_Delete_restores_pool (ok_oracle two_disk_listing) robot_down_oracle "" ""
           (plan_with TNull) 1700000000 world0 _ Hst "10.1.0.2").
Defined.

Lemma Update_version_UsedIPs respond PI PF (plan cur : configurationModel) (w : World) :
  UsedIPs (snd (Update_version respond PI PF plan cur w)) =
  if (known (Version plan) &&
      negb (known (LocalIP cur) && negb (String.eqb (ValueString (LocalIP cur)) "")))%bool
  then snd (GetNextAvailableIP (UsedIPs w)) else UsedIPs w.
Proof.
  unfold Update_version.
  destruct (known (Version plan)); simpl; [|reflexivity].
  destruct (_ && _)%bool; simpl.
  - unfold Update_reconfigure, mbind, M_bind.
    pose proof (configure_keeps respond PI PF (mustStringSlice (RescueKeyFPs plan))
                  (ValueString (ServerIP plan)) (set_LocalIP plan (LocalIP cur)) w) as Hk.
    destruct (configure _ _ _ _ _ _ w) as [[s d] w1]. simpl in *.
    by destruct (negb _).
  - unfold mbind, M_bind, acquire_ip.
    destruct (GetNextAvailableIP (UsedIPs w)) as [[e|ip] u]; simpl; [reflexivity|].
    unfold Update_reconfigure, mbind, M_bind.
    match goal with |- UsedIPs (snd (let '(_, _) := configure ?r ?a ?b ?c ?d ?e ?w1 in _)) = _ =>
      pose proof (configure_keeps r a b c d e w1) as Hk;
      destruct (configure r a b c d e w1) as [[s d0] w2] end.
    simpl in *. by destruct (negb _).
Qed.

Lemma Update_UsedIPs respond PI PF (plan cur : configurationModel) (w : World) :
  UsedIPs (snd (Update respond PI PF plan cur w)) = UsedIPs w \/
  ((known (Version plan) &&
    negb (known (LocalIP cur) && negb (String.eqb (ValueString (LocalIP cur)) "")))%bool = true /\
   UsedIPs (snd (Update respond PI PF plan cur w)) = snd (GetNextAvailableIP (UsedIPs w))).
Proof.
  assert (Hv : forall w', UsedIPs (snd (Update_version respond PI PF
                 (if known (LocalIP cur) then set_LocalIP plan (LocalIP cur) else plan) cur w'))
               = if (known (Version plan) &&
                     negb (known (LocalIP cur) &&
                           negb (String.eqb (ValueString (LocalIP cur)) "")))%bool
                 then snd (GetNextAvailableIP (UsedIPs w')) else UsedIPs w').
  { intros w'. rewrite Update_version_UsedIPs. by destruct (known (LocalIP cur)). }
  assert (Hs : forall w', UsedIPs (snd (Update_vswitch respond PI PF
                 (if known (LocalIP cur) then set_LocalIP plan (LocalIP cur) else plan) cur w'))
               = UsedIPs w' \/
               exists w1, UsedIPs w1 = UsedIPs w' /\
               UsedIPs (snd (Update_vswitch respond PI PF
                 (if known (LocalIP cur) then set_LocalIP plan (LocalIP cur) else plan) cur w'))
               = UsedIPs (snd (Update_version respond PI PF
                 (if known (LocalIP cur) then set_LocalIP plan (LocalIP cur) else plan) cur w1))).
  { intros w'. unfold Update_vswitch.
    destruct (known (VSwitchID _)); [|right; by exists w'].
    destruct (known (ServerIP cur)); [|right; by exists w'].
    unfold mbind, M_bind, issue. simpl. split_resp; simpl; [|by left].
    right. eexists; split; [|reflexivity]. reflexivity. }
  assert (Hfin : forall w', UsedIPs w' = UsedIPs w ->
    UsedIPs (snd (Update_vswitch respond PI PF
                 (if known (LocalIP cur) then set_LocalIP plan (LocalIP cur) else plan) cur w'))
      = UsedIPs w \/
    ((known (Version plan) &&
      negb (known (LocalIP cur) && negb (String.eqb (ValueString (LocalIP cur)) "")))%bool = true /\
     UsedIPs (snd (Update_vswitch respond PI PF
                 (if known (LocalIP cur) then set_LocalIP plan (LocalIP cur) else plan) cur w'))
      = snd (GetNextAvailableIP (UsedIPs w)))).
  { intros w' Hw'. destruct (Hs w') as [H|(w1 & Hw1 & H)]; rewrite H; [by left|].
    rewrite Hv, Hw1, Hw'. destruct (_ && _)%bool; [by right|by left]. }
  unfold Update. cbv zeta.
  destruct (negb (String.eqb (robot_name _) "")); [|by apply Hfin].
  unfold mbind, M_bind, issue. simpl. split_resp; simpl; [|by left].
  by apply Hfin.
Qed.

(** [Update] never frees an address of the IP pool; it leaves the pool as it
    was when the prior state holds a known, non-empty [local_ip], and when the
    plan's [version] is null or unknown. *)
Theorem Update_pool_effect (respond : list call -> call -> resp) (PI PF : string)
  (plan cur : configurationModel) (w : World) :
  (forall x, is_used (UsedIPs w) x = true ->
     is_used (UsedIPs (snd (Update respond PI PF plan cur w))) x = true) /\
  (known (LocalIP cur) = true -> ValueString (LocalIP cur) <> "" ->
     UsedIPs (snd (Update respond PI PF plan cur w)) = UsedIPs w) /\
  (known (Version plan) = false ->
     UsedIPs (snd (Update respond PI PF plan cur w)) = UsedIPs w).
Proof.
  destruct (Update_UsedIPs respond PI PF plan cur w) as [H|[Hc H]]; rewrite H.
  - split; [done|]. split; done.
  - split; [intros x Hx; by apply GetNextAvailableIP_mono|]. split.
    + intros Hk Hne. apply String.eqb_neq in Hne. rewrite Hk, Hne in Hc.
      by rewrite andb_false_r in Hc.
    + intros Hv. by rewrite Hv in Hc.
Qed.

Lemma Update_pool_effect_witness :
  is_used (UsedIPs (snd (Update (ok_oracle two_disk_listing) "" "" (plan_with (TVal 2%Z))
                           (prior_state_with_ip TNull) world0))) "10.1.0.5" = true /\
  UsedIPs (snd (Update (ok_oracle two_disk_listing) "" "" (plan_with (TVal 2%Z))
                  prior_state world0)) = UsedIPs world0 /\
  UsedIPs (snd (Update (ok_oracle two_disk_listing) "" "" (plan_with TNull)
                  (prior_state_with_ip TNull) world0)) = UsedIPs world0.
Proof.
  split; [|split].
  - apply (proj1 (Update_pool_effect (ok_oracle two_disk_listing) "" "" (plan_with (TVal 2%Z))
                    (prior_state_with_ip TNull) world0)).
    vm_compute. reflexivity.
  - apply (proj1 (proj2 (Update_pool_effect (ok_oracle two_disk_listing) "" ""
                           (plan_with (TVal 2%Z)) prior_state world0))).
    + reflexivity.
    + discriminate.
  - apply (proj2 (proj2 (Update_pool_effect (ok_oracle two_disk_listing) "" ""
                           (plan_with TNull) (prior_state_with_ip TNull) world0))).
    reflexivity.
Defined.

(** An [Update] whose plan has a null or unknown [version] leaves the IP pool
    alone, issues nothing but the Robot name and vSwitch calls, and writes, if
    anything, the plan with the prior ID and (when known) the prior
    [local_ip]. *)
Theorem Update_without_version (respond : list call -> call -> resp) (PI PF : string)
  (plan cur : configurationModel) (w : World)
  (Hv : known (Version plan) = false) :
  UsedIPs (snd (Update respond PI PF plan cur w)) = UsedIPs w /\
  (exists l, Calls (snd (Update respond PI PF plan cur w)) = Calls w ++ l /\
     Forall (fun c => metadata_call c = true) l) /\
  (forall st, new_state (fst (Update respond PI PF plan cur w)) = Some st ->
     st = set_ID (if known (LocalIP cur) then set_LocalIP plan (LocalIP cur) else plan)
                 (ID cur)).
Proof.
  unfold Update, Update_vswitch, Update_version. cbv zeta.
  destruct (known (LocalIP cur)); simpl; rewrite Hv; simpl;
  unfold mbind, M_bind, issue; simpl;
  repeat (first [split_resp | match goal with |- context [if ?b then _ else _] => destruct b end];
          simpl).
  all: split; [reflexivity|].
  all: split; [first [exists []; rewrite app_nil_r; split; [reflexivity|constructor]
                     | eexists; split; [rewrite <- !app_assoc; reflexivity|simpl; repeat constructor]
                     | eexists; split; [reflexivity|simpl; repeat constructor]]|].
  all: intros st; try discriminate; congruence.
Qed.

Lemma Update_without_version_witness :
  known (Version (plan_with TNull)) = false /\
  UsedIPs (snd (Update (ok_oracle two_disk_listing) "" "" (plan_with TNull) prior_state world0))
    = UsedIPs world0 /\
  (exists l, Calls (snd (Update (ok_oracle two_disk_listing) "" "" (plan_with TNull)
                          prior_state world0)) = (Calls world0 ++ l)%list /\
     Forall (fun c => metadata_call c = true) l) /\
  (forall st, new_state (fst (Update (ok_oracle two_disk_listing) "" "" (plan_with TNull)
                                prior_state world0)) = Some st ->
     st = set_ID (if known (LocalIP prior_state)
                  then set_LocalIP (plan_with TNull) (LocalIP prior_state) else plan_with TNull)
                 (ID prior_state)).
Proof.
  split; [reflexivity|].
  exact (Update_without_version (ok_oracle two_disk_listing) "" "" (plan_with TNull)
           prior_state world0 eq_refl).
Defined.

(** [Delete] issues exactly one call, the cancellation of the server at the
    end of its billing period, and only when the server number is known; it
    frees the [local_ip] when that is known and non-empty and changes nothing
    else in the pool; and it always reports exactly one diagnostic, a
    warning. *)
Theorem Delete_effects (respond : list call -> call -> resp) (state : configurationModel)
  (w : World) :
  Calls (snd (Delete respond state w)) =
    Calls w ++ (if known (ServerNumber state)
                then [CancelServer (ValueInt64 (ServerNumber state)) ""] else []) /\
  UsedIPs (snd (Delete respond state w)) =
    (if (known (LocalIP state) && negb (String.eqb (ValueString (LocalIP state)) ""))%bool
     then ReleaseIP (UsedIPs w) (ValueString (LocalIP state)) else UsedIPs w) /\
  exists d, fst (Delete respond state w) = [d] /\ d_severity d = SevWarning.
Proof.
  split; [|split; [apply Delete_UsedIPs|]].
  - unfold Delete, mbind, M_bind, release_ip, issue.
    destruct (_ && _)%bool; simpl;
    (destruct (known (ServerNumber state)); simpl; [split_resp; reflexivity|by rewrite app_nil_r]).
  - unfold Delete, mbind, M_bind, release_ip, issue.
    destruct (_ && _)%bool; simpl;
    (destruct (known (ServerNumber state)); simpl; [split_resp; simpl|]; by eexists).
Qed.

